(** * The GitHub Models extension: request dispatch pipeline

    A shallow embedding of [src/index.ts] (the [app.post("/")] handler) and
    of [src/functions/execute-model.ts] (the [executeModel] capability).

    The handler talks to four collaborators that live outside the
    repository: the request verifier of the Copilot SDK, the model catalog,
    the chat-completion backends and the response object of the web
    framework.  What the collaborators answer is an input of the model (the
    record [World]); what the handler asks of them and what it does to the
    response object is its output, an ordered list of [Event]s, together
    with the way the handler ended.  Console logging and timers are left
    out. *)

From Stdlib Require Import String Ascii List Bool Arith NArith Lia.
From ExtLib Require Import Structures.Monad.
Import ListNotations.
Import MonadNotation.
Local Open Scope string_scope.
Local Open Scope monad_scope.

Set Implicit Arguments.
Set Warnings "-register-all".

(** ** JavaScript values *)

(** A value produced by [JSON.parse].  A number keeps the text of its
    literal: no arithmetic is ever done on one here. *)
Inductive Json : Type :=
| JNull
| JBool (b : bool)
| JNum (literal : string)
| JStr (s : string)
| JArr (items : list Json)
| JObj (fields : list (string * Json)).

(** A value read from a property: [None] is [undefined]. *)
Definition JsValue : Type := option Json.

Definition str (s : string) : JsValue := Some (JStr s).

(** What a handler can throw, or a promise reject with. *)
Inductive Exn : Type :=
| TypeError (message : string)
| SyntaxError (message : string)
| Error (message : string)
| Failure (reason : string).

(** The own property [k] of an object built by [JSON.parse]: when a key is
    repeated in the text the last occurrence is the one that stays. *)
Fixpoint own_property (k : string) (fields : list (string * Json)) : JsValue :=
  match fields with
  | [] => None
  | (k', v) :: rest =>
      match own_property k rest with
      | Some v' => Some v'
      | None => if String.eqb k k' then Some v else None
      end
  end.

(** [v.k] for a parsed value [v] and a key [k] that is not the name of a
    built-in property ([model] and [instruction] are the keys read here).
    Reading a property of [null] throws; primitives and arrays have no such
    property. *)
Definition get_property (v : Json) (k : string) : Exn + JsValue :=
  match v with
  | JNull =>
      inl (TypeError ("Cannot read properties of null (reading '" ++ k ++ "')"))
  | JObj fields => inr (own_property k fields)
  | _ => inr None
  end.

(** ** The built-in [JSON] object

    [JSON.parse] and [JSON.stringify] belong to the language, not to the
    repository: the handler below takes them as parameters and every
    general statement holds for any pair of functions.  This module is a
    model of the two, over byte strings, for running the handler on
    concrete requests. *)
Module JSON.

Definition code (c : ascii) : N := N_of_ascii c.
Definition char (n : N) : ascii := ascii_of_N n.

Definition quote : ascii := char 34.
Definition backslash : ascii := char 92.

Definition is_ws (c : ascii) : bool :=
  let n := code c in
  (n =? 32)%N || (n =? 9)%N || (n =? 10)%N || (n =? 13)%N.

Definition is_digit (c : ascii) : bool :=
  let n := code c in (48 <=? n)%N && (n <=? 57)%N.

Fixpoint skip_ws (s : string) : string :=
  match s with
  | String c r => if is_ws c then skip_ws r else s
  | EmptyString => s
  end.

(** The longest prefix of digits, and what follows it. *)
Fixpoint digits (s : string) : string * string :=
  match s with
  | String c r =>
      if is_digit c then let (d, r') := digits r in (String c d, r') else ("", s)
  | EmptyString => ("", s)
  end.

Definition digits1 (s : string) : option (string * string) :=
  match digits s with
  | (EmptyString, _) => None
  | (d, r) => Some (d, r)
  end.

(** A number literal: an optional minus sign; zero, or a nonzero digit
    and more digits; an optional fraction; an optional exponent. *)
Definition number (s : string) : option (string * string) :=
  let (sign, s1) :=
    match s with
    | String c r => if Ascii.eqb c "-" then ("-", r) else ("", s)
    | EmptyString => ("", s)
    end in
  match (match s1 with
         | String c r => if Ascii.eqb c "0" then Some ("0", r) else digits1 s1
         | EmptyString => None
         end) with
  | None => None
  | Some (int, s2) =>
      match (match s2 with
             | String c r =>
                 if Ascii.eqb c "."
                 then match digits1 r with
                      | Some (d, r') => Some ("." ++ d, r')
                      | None => None
                      end
                 else Some ("", s2)
             | EmptyString => Some ("", s2)
             end) with
      | None => None
      | Some (frac, s3) =>
          match (match s3 with
                 | String c r =>
                     if Ascii.eqb c "e" || Ascii.eqb c "E"
                     then
                       let (esign, r1) :=
                         match r with
                         | String c' r' =>
                             if Ascii.eqb c' "+" || Ascii.eqb c' "-"
                             then (String c' "", r') else ("", r)
                         | EmptyString => ("", r)
                         end in
                       match digits1 r1 with
                       | Some (d, r') => Some (String c esign ++ d, r')
                       | None => None
                       end
                     else Some ("", s3)
                 | EmptyString => Some ("", s3)
                 end) with
          | None => None
          | Some (exp, s4) => Some (sign ++ int ++ frac ++ exp, s4)
          end
      end
  end.

Definition hex (c : ascii) : option N :=
  let n := code c in
  if (48 <=? n)%N && (n <=? 57)%N then Some (n - 48)%N
  else if (65 <=? n)%N && (n <=? 70)%N then Some (n - 55)%N
  else if (97 <=? n)%N && (n <=? 102)%N then Some (n - 87)%N
  else None.

Definition hex4 (a b c d : ascii) : option N :=
  match hex a, hex b, hex c, hex d with
  | Some x, Some y, Some z, Some t => Some (((x * 16 + y) * 16 + z) * 16 + t)%N
  | _, _, _, _ => None
  end.

(** The bytes of a code point (a lone surrogate takes three, like any
    other code unit of its size). *)
Definition utf8 (n : N) : string :=
  let tail (k : N) := char (128 + (n / k) mod 64)%N in
  if (n <? 128)%N then String (char n) ""
  else if (n <? 2048)%N then String (char (192 + n / 64)%N) (String (tail 1%N) "")
  else if (n <? 65536)%N
  then String (char (224 + n / 4096)%N) (String (tail 64%N) (String (tail 1%N) ""))
  else String (char (240 + n / 262144)%N)
              (String (tail 4096%N) (String (tail 64%N) (String (tail 1%N) ""))).

Definition escape (c : ascii) : option ascii :=
  if Ascii.eqb c quote then Some quote
  else if Ascii.eqb c backslash then Some backslash
  else if Ascii.eqb c "/" then Some "/"%char
  else if Ascii.eqb c "b" then Some (char 8)
  else if Ascii.eqb c "f" then Some (char 12)
  else if Ascii.eqb c "n" then Some (char 10)
  else if Ascii.eqb c "r" then Some (char 13)
  else if Ascii.eqb c "t" then Some (char 9)
  else None.

Definition followed_by (p : string) (r : option (string * string))
  : option (string * string) :=
  match r with
  | Some (s, rest) => Some (p ++ s, rest)
  | None => None
  end.

(** The characters of a string literal after its opening quote, up to
    the closing one. *)
Fixpoint chars (s : string) : option (string * string) :=
  match s with
  | EmptyString => None
  | String c r =>
      if Ascii.eqb c quote then Some ("", r)
      else if Ascii.eqb c backslash then
        match r with
        | EmptyString => None
        | String e r1 =>
            match escape e with
            | Some x => followed_by (String x "") (chars r1)
            | None =>
                if Ascii.eqb e "u" then
                  match r1 with
                  | String h1 (String h2 (String h3 (String h4 r2))) =>
                      match hex4 h1 h2 h3 h4 with
                      | None => None
                      | Some hi =>
                          match r2 with
                          | String b (String u (String l1 (String l2 (String l3 (String l4 r3))))) =>
                              match hex4 l1 l2 l3 l4 with
                              | Some lo =>
                                  if Ascii.eqb b backslash && Ascii.eqb u "u"
                                     && (55296 <=? hi)%N && (hi <? 56320)%N
                                     && (56320 <=? lo)%N && (lo <? 57344)%N
                                  then followed_by
                                         (utf8 (65536 + (hi - 55296) * 1024 + (lo - 56320))%N)
                                         (chars r3)
                                  else followed_by (utf8 hi) (chars r2)
                              | None => followed_by (utf8 hi) (chars r2)
                              end
                          | _ => followed_by (utf8 hi) (chars r2)
                          end
                      end
                  | _ => None
                  end
                else None
            end
        end
      else if (code c <? 32)%N then None
      else followed_by (String c "") (chars r)
  end.

Fixpoint strip (p s : string) : option string :=
  match p, s with
  | EmptyString, _ => Some s
  | String a p', String b s' => if Ascii.eqb a b then strip p' s' else None
  | _, _ => None
  end.

(** A value at the head of [s] and the rest of the text; [elements] and
    [members] read what follows an opening bracket or a comma.  The fuel
    bounds the nesting and the number of items. *)
Fixpoint value (fuel : nat) (s : string) : option (Json * string) :=
  match fuel with
  | O => None
  | S fuel' =>
      match skip_ws s with
      | EmptyString => None
      | String c r as s' =>
          if Ascii.eqb c "{" then
            match skip_ws r with
            | String c' r' =>
                if Ascii.eqb c' "}" then Some (JObj [], r')
                else match members fuel' r with
                     | Some (fs, r'') => Some (JObj fs, r'')
                     | None => None
                     end
            | EmptyString => None
            end
          else if Ascii.eqb c "[" then
            match skip_ws r with
            | String c' r' =>
                if Ascii.eqb c' "]" then Some (JArr [], r')
                else match elements fuel' r with
                     | Some (vs, r'') => Some (JArr vs, r'')
                     | None => None
                     end
            | EmptyString => None
            end
          else if Ascii.eqb c quote then
            match chars r with
            | Some (x, r') => Some (JStr x, r')
            | None => None
            end
          else
            match strip "null" s', strip "true" s', strip "false" s' with
            | Some r', _, _ => Some (JNull, r')
            | _, Some r', _ => Some (JBool true, r')
            | _, _, Some r' => Some (JBool false, r')
            | None, None, None =>
                match number s' with
                | Some (n, r') => Some (JNum n, r')
                | None => None
                end
            end
      end
  end
with elements (fuel : nat) (s : string) : option (list Json * string) :=
  match fuel with
  | O => None
  | S fuel' =>
      match value fuel' s with
      | None => None
      | Some (v, r) =>
          match skip_ws r with
          | String c r' =>
              if Ascii.eqb c "," then
                match elements fuel' r' with
                | Some (vs, r'') => Some (v :: vs, r'')
                | None => None
                end
              else if Ascii.eqb c "]" then Some ([v], r')
              else None
          | EmptyString => None
          end
      end
  end
with members (fuel : nat) (s : string) : option (list (string * Json) * string) :=
  match fuel with
  | O => None
  | S fuel' =>
      match skip_ws s with
      | String q r =>
          if Ascii.eqb q quote then
            match chars r with
            | None => None
            | Some (k, r1) =>
                match skip_ws r1 with
                | String c r2 =>
                    if Ascii.eqb c ":" then
                      match value fuel' r2 with
                      | None => None
                      | Some (v, r3) =>
                          match skip_ws r3 with
                          | String c' r4 =>
                              if Ascii.eqb c' "," then
                                match members fuel' r4 with
                                | Some (fs, r5) => Some ((k, v) :: fs, r5)
                                | None => None
                                end
                              else if Ascii.eqb c' "}" then Some ([(k, v)], r4)
                              else None
                          | EmptyString => None
                          end
                      end
                    else None
                | EmptyString => None
                end
            end
          else None
      | EmptyString => None
      end
  end.

(** [JSON.parse(text)]: [None] when it throws a [SyntaxError]. *)
Definition parse (text : string) : option Json :=
  match value (2 * String.length text + 2) text with
  | Some (v, r) =>
      match skip_ws r with
      | EmptyString => Some v
      | String _ _ => None
      end
  | None => None
  end.

Definition hex_digit (n : N) : ascii :=
  if (n <? 10)%N then char (48 + n) else char (87 + n).

Definition quote_char (c : ascii) : string :=
  let n := code c in
  if Ascii.eqb c quote then String backslash (String quote "")
  else if Ascii.eqb c backslash then String backslash (String backslash "")
  else if (n =? 8)%N then String backslash "b"
  else if (n =? 12)%N then String backslash "f"
  else if (n =? 10)%N then String backslash "n"
  else if (n =? 13)%N then String backslash "r"
  else if (n =? 9)%N then String backslash "t"
  else if (n <? 32)%N
  then String backslash
         (String "u" (String "0" (String "0"
            (String (hex_digit (n / 16)) (String (hex_digit (n mod 16)) "")))))
  else String c "".

Fixpoint quote_chars (s : string) : string :=
  match s with
  | EmptyString => ""
  | String c r => quote_char c ++ quote_chars r
  end.

Definition quoted (s : string) : string :=
  String quote (quote_chars s ++ String quote "").

(** [JSON.stringify(v)] of a parsed value: a number prints as its
    literal, the fields of an object in the order of the list. *)
Fixpoint stringify (v : Json) : string :=
  match v with
  | JNull => "null"
  | JBool true => "true"
  | JBool false => "false"
  | JNum literal => literal
  | JStr s => quoted s
  | JArr items => "[" ++ String.concat "," (map stringify items) ++ "]"
  | JObj fields =>
      "{" ++ String.concat ","
               (map (fun kv => quoted (fst kv) ++ ":" ++ stringify (snd kv)) fields)
          ++ "}"
  end.

End JSON.

(** ** Messages and capability results *)

(** A chat message.  [content] is a JavaScript value because a capability
    copies whatever the parsed arguments hold into it. *)
Record Message : Type := { role : string; content : JsValue }.

(** [RunnerResponse]: the model to call and the messages to send. *)
Record RunnerResponse : Type :=
  { model : JsValue; messages : list Message }.

(** ** [executeModel] (src/functions/execute-model.ts) *)

Module ExecuteModel.

(** The [name] of the [definition] field, which line 5 declares on the
    instances of the class. *)
Definition definition_name : string := "execute_model".

Definition identity_prompt : string :=
  "Begin your response by telling the user the name of your language model.".

(** [execute(_, args)]: the two property reads happen while the result
    object is built, [args.model] first. *)
Definition execute (_ : list Message) (args : Json) : Exn + RunnerResponse :=
  match get_property args "model" with
  | inl e => inl e
  | inr m =>
      match get_property args "instruction" with
      | inl e => inl e
      | inr i =>
          inr {| model := m;
                 messages := [ {| role := "system"; content := str identity_prompt |};
                               {| role := "user"; content := i |} ] |}
      end
  end.

(** The argument object the signature of [execute] declares:
    [{ model: string; instruction: string }]. *)
Definition args (model instruction : string) : Json :=
  JObj [("model", JStr model); ("instruction", JStr instruction)].

End ExecuteModel.

(** ** What the handler reads *)

(** An entry of the model catalog, as [modelsAPI.listModels()] returns it. *)
Module Catalog.
Record Model : Type :=
  { friendly_name : string;
    name : string;
    publisher : string;
    model_registry : string;
    summary : string }.
End Catalog.

(** The verified request body: only [payload.messages] is read. *)
Module Payload.
Record t : Type := { messages : list Message }.
End Payload.

(** The answer of [verifyAndParseRequest]. *)
Record VerifyResult : Type :=
  { isValidRequest : bool; payload : Payload.t }.

(** The inbound request: its body and the three headers, each absent
    ([None]) or present. *)
Record Request : Type :=
  { body : string;
    signature : option string;
    keyID : option string;
    token : option string }.

(** The tool-selection answer, down to the fields the handler reads:
    [choices[0].message.tool_calls[0].function.{name, arguments}].  A field
    that may be missing or [null] is an [option]. *)
Record FunctionCall : Type := { name : string; arguments : string }.
Record ToolCall : Type := { function : option FunctionCall }.
Record ChoiceMessage : Type := { tool_calls : option (list ToolCall) }.
Record Choice : Type := { message : option ChoiceMessage }.
Record Completion : Type := { choices : list Choice }.

(** A streamed answer: the chunks the backend emits, in order, and then
    either the end of the stream ([None]) or an error. *)
Record Stream : Type := { chunks : list Json; failure : option Exn }.

(** ** What the handler does *)

Inductive Client : Type :=
| Capi        (* new OpenAI({ baseURL: "https://api.githubcopilot.com", apiKey }) *)
| Inference.  (* modelsAPI.inference *)

Record StreamOptions : Type := { include_usage : bool }.

(** The argument of [chat.completions.create]; a key the call does not pass
    is [None]. *)
Record CreateParams : Type :=
  { req_stream : bool;
    req_model : JsValue;
    req_messages : list Message;
    req_tool_choice : option string;
    req_tools : option (list Json);
    req_stream_options : option StreamOptions }.

Inductive Event : Type :=
| ResStatus (code : nat)                  (* res.status(code) *)
| ResWrite (data : string)                (* res.write(data) *)
| ResSend (data : string)                 (* res.send(data) *)
| ResEnd (data : option string)           (* res.end() and res.end(data) *)
| ListModels                              (* modelsAPI.listModels() *)
| Create (client : Client) (params : CreateParams)
                                          (* client.chat.completions.create(params) *)
| Execute (capability : string) (conversation : list Message) (args : Json).
                                          (* new funcClass(modelsAPI).execute(conversation, args) *)

(** A run of effectful code: the events so far, and an exception or a
    value. *)
Definition Run (A : Type) : Type := list Event * (Exn + A).

#[global] Instance Monad_Run : Monad Run :=
  {| ret := fun _ a => ([], inr a);
     bind := fun _ _ m k =>
       match snd m with
       | inl e => (fst m, inl e)
       | inr a => ((fst m ++ fst (k a))%list, snd (k a))
       end |}.

Definition emit (e : Event) : Run unit := ([e], inr tt).
Definition throw {A : Type} (e : Exn) : Run A := ([], inl e).
Definition lift {A : Type} (r : Exn + A) : Run A := ([], r).

(** A remote call: the event, then the collaborator's answer. *)
Definition call {A : Type} (e : Event) (answer : Exn + A) : Run A := ([e], answer).

(** [try { body } catch (err) { handler }] *)
Definition try_catch {A : Type} (body : Run A) (handler : Exn -> Run A) : Run A :=
  match snd body with
  | inl e => ((fst body ++ fst (handler e))%list, snd (handler e))
  | inr a => body
  end.

Definition trace {A : Type} (r : Run A) : list Event := fst r.

(** How the handler's promise settles. *)
Inductive Outcome : Type := Returned | Uncaught (e : Exn).

Definition outcome (r : Run unit) : Outcome :=
  match snd r with inl e => Uncaught e | inr _ => Returned end.

(** A capability class of the registry: what index.ts reads from the class
    ([f.definition], [f.tool]) and what an instance does.
    [definition_name] is the [name] of the class's own [definition]; it is
    [None] for a class that has no [definition], on which reading
    [f.definition.name] throws. *)
Record Tool : Type :=
  { definition_name : option string;
    tool : Json;
    execute : list Message -> Json -> Exn + RunnerResponse }.

(** [f.definition.name === wanted], read on the class [f]. *)
Definition is_named (wanted : string) (f : Tool) : Exn + bool :=
  match definition_name f with
  | None => inl (TypeError "Cannot read properties of undefined (reading 'name')")
  | Some n => inr (String.eqb n wanted)
  end.

(** [Array.prototype.find] with a callback that can throw: the elements
    are tested in order, the first one that passes is the result, and a test
    that throws ends the search. *)
Fixpoint find_first {A : Type} (test : A -> Exn + bool) (l : list A)
  : Exn + option A :=
  match l with
  | [] => inr None
  | x :: rest =>
      match test x with
      | inl e => inl e
      | inr true => inr (Some x)
      | inr false => find_first test rest
      end
  end.

(** The collaborators' answers during one request. *)
Record World : Type :=
  { verifyAndParseRequest :
      string -> option string -> option string -> option string -> Exn + VerifyResult;
    listModels_result : Exn + list Catalog.Model;
    capi_create : CreateParams -> Exn + Completion;
    capi_create_stream : CreateParams -> Exn + Stream;
    inference_create_stream : CreateParams -> Exn + Stream }.

Definition LF : string := String "010" EmptyString.

(** ** Reading a trace *)

(** What was done to the response object, in order. *)
Definition is_response (e : Event) : bool :=
  match e with
  | ResStatus _ | ResWrite _ | ResSend _ | ResEnd _ => true
  | _ => false
  end.

Definition response (t : list Event) : list Event := filter is_response t.

(** The streaming completion requests that were issued, in order. *)
Definition streaming_requests (t : list Event) : list (Client * CreateParams) :=
  flat_map (fun e =>
              match e with
              | Create client p => if req_stream p then [(client, p)] else []
              | _ => []
              end) t.

(** The capability executions, in order. *)
Definition executions (t : list Event) : list (string * list Message * Json) :=
  flat_map (fun e =>
              match e with
              | Execute capability conversation args => [(capability, conversation, args)]
              | _ => []
              end) t.

(** The calls to the collaborators and the capability executions, in
    order: everything that is not done to the response object. *)
Definition calls (t : list Event) : list Event :=
  filter (fun e => negb (is_response e)) t.

(** [res.end] and [res.send] end the response. *)
Definition is_closing (e : Event) : bool :=
  match e with
  | ResEnd _ | ResSend _ => true
  | _ => false
  end.

(** Nothing follows an operation that ends the response. *)
Fixpoint closed_last (ops : list Event) : bool :=
  match ops with
  | [] => true
  | e :: rest =>
      if is_closing e
      then match rest with [] => true | _ :: _ => false end
      else closed_last rest
  end.

(** A streaming request that does not reach the end of its stream: the
    chunks that arrive before the error, and the error.  The request itself
    may fail, or the stream may break after some chunks. *)
Definition interrupted (answer : Exn + Stream) : option (list Json * Exn) :=
  match answer with
  | inl e => Some ([], e)
  | inr s =>
      match failure s with
      | Some e => Some (chunks s, e)
      | None => None
      end
  end.

(** Whether a completion request asks the backend to report token usage:
    [stream_options.include_usage], off when the option is not passed. *)
Definition usage_reporting (p : CreateParams) : bool :=
  match req_stream_options p with
  | Some o => include_usage o
  | None => false
  end.

(** The world [w], except that the tool-selection call answers [toolCaller]. *)
Definition answering (w : World) (toolCaller : Completion) : World :=
  {| verifyAndParseRequest := verifyAndParseRequest w;
     listModels_result := listModels_result w;
     capi_create := fun _ => inr toolCaller;
     capi_create_stream := capi_create_stream w;
     inference_create_stream := inference_create_stream w |}.

(** What a backend answers to a streaming request. *)
Definition stream_answer (w : World) (client : Client) (p : CreateParams)
  : Exn + Stream :=
  match client with
  | Capi => capi_create_stream w p
  | Inference => inference_create_stream w p
  end.

(** A tool-selection answer with one choice, whose message offers [calls]. *)
Definition offering (calls : option (list ToolCall)) : Completion :=
  {| choices := [ {| message := Some {| tool_calls := calls |} |} ] |}.

Definition tool_call (capability args : string) : ToolCall :=
  {| function := Some {| name := capability; arguments := args |} |}.

(** ** A concrete setting for running the handler *)
Module Sample.

Definition user (text : string) : Message :=
  {| role := "user"; content := str text |}.

Definition gpt_4o : Catalog.Model :=
  {| Catalog.friendly_name := "OpenAI GPT-4o";
     Catalog.name := "gpt-4o";
     Catalog.publisher := "OpenAI";
     Catalog.model_registry := "azure-openai";
     Catalog.summary := "A multimodal model" |}.

Definition catalog : list Catalog.Model := [gpt_4o].

(** A stand-in for the frame the SDK's [createAckEvent] prints. *)
Definition ackEvent : string :=
  "data: "
  ++ JSON.stringify
       (JObj [("choices",
               JArr [JObj [("delta", JObj [("content", JStr "");
                                          ("role", JStr "assistant")])]])])
  ++ LF ++ LF.

Definition lower (c : ascii) : ascii :=
  let n := N_of_ascii c in
  if (65 <=? n)%N && (n <=? 90)%N then ascii_of_N (n + 32) else c.

Fixpoint lowercase (s : string) : string :=
  match s with
  | EmptyString => EmptyString
  | String c r => String (lower c) (lowercase r)
  end.

(** Modelled from the spec: the [describeModel] capability, whose file
    (functions/describe-model.ts) is not part of this development.  Its
    argument is [{ model }]; it fails with a not-found error when no
    catalog entry matches the name case-insensitively, and otherwise
    returns messages that ask for a description of the model. *)
Definition describeModel : Tool :=
  {| definition_name := Some "describe_model";
     tool := JObj [("type", JStr "function")];
     execute := fun _ args =>
       match get_property args "model" with
       | inl e => inl e
       | inr (Some (JStr m)) =>
           if existsb (fun x => String.eqb (lowercase (Catalog.name x)) (lowercase m))
                      catalog
           then inr {| model := str "gpt-4o-mini";
                       messages := [ {| role := "system";
                                        content := str ("Describe the model " ++ m) |} ] |}
           else inl (Error ("NotFoundError: " ++ m))
       | inr _ => inl (Error "NotFoundError")
       end |}.

(** Stand-ins for the two other capabilities that are not part of this
    development: each answers with a fixed rewrite.  Like [describeModel],
    each stands for a class that carries its [definition] itself. *)
Definition listModels : Tool :=
  {| definition_name := Some "list_models";
     tool := JObj [("type", JStr "function")];
     execute := fun _ _ =>
       inr {| model := str "gpt-4o-mini";
              messages := [ {| role := "system"; content := str "List the models" |} ] |} |}.

Definition recommendModel : Tool :=
  {| definition_name := Some "recommend_model";
     tool := JObj [("type", JStr "function")];
     execute := fun conversation _ =>
       inr {| model := str "gpt-4o-mini";
              messages := ({| role := "system"; content := str "Recommend a model" |}
                           :: conversation)%list |} |}.

Definition executeModel_tool : Json := JObj [("type", JStr "function")].

Definition conversation : list Message := [user "using gpt-4o: say hi"].

Definition chunk (text : string) : Json :=
  JObj [("choices", JArr [JObj [("delta", JObj [("content", JStr text)])]])].

Definition stream : Stream :=
  {| chunks := [chunk "I am "; chunk "gpt-4o. "; chunk "Hi!"]; failure := None |}.

(** A world in which a request with both signature headers verifies, the
    catalog answers, both backends stream [stream], and the tool-selection
    call answers [toolCaller]. *)
Definition world (toolCaller : Completion) : World :=
  {| verifyAndParseRequest := fun _ sig key _ =>
       match sig, key with
       | Some _, Some _ =>
           inr {| isValidRequest := true;
                  payload := {| Payload.messages := conversation |} |}
       | _, _ => inl (Error "Invalid signature")
       end;
     listModels_result := inr catalog;
     capi_create := fun _ => inr toolCaller;
     capi_create_stream := fun _ => inr stream;
     inference_create_stream := fun _ => inr stream |}.

(** A stream that breaks after its first chunk. *)
Definition broken_stream : Stream :=
  {| chunks := [chunk "I am "]; failure := Some (Failure "socket hang up") |}.

(** The same world, except that both backends answer a streaming request
    with [answer]. *)
Definition world_streaming (toolCaller : Completion) (answer : Exn + Stream) : World :=
  {| verifyAndParseRequest := verifyAndParseRequest (world toolCaller);
     listModels_result := listModels_result (world toolCaller);
     capi_create := capi_create (world toolCaller);
     capi_create_stream := fun _ => answer;
     inference_create_stream := fun _ => answer |}.

Definition request : Request :=
  {| body := "{}";
     signature := Some "MEUCIQ";
     keyID := Some "4fe6b0";
     token := Some "ghu_token" |}.

(** The same request without the [X-GitHub-Token] header. *)
Definition request_without_token : Request :=
  {| body := "{}";
     signature := Some "MEUCIQ";
     keyID := Some "4fe6b0";
     token := None |}.

(** "using gpt-4o: say hi" resolved to [execute_model]. *)
Definition say_hi : ToolCall :=
  tool_call "execute_model" (JSON.stringify (ExecuteModel.args "gpt-4o" "say hi")).

End Sample.

(** ** The handler of [app.post("/")] (src/index.ts) *)

Section Handler.

(** Built-ins and library values. *)
Variable JSON_parse : string -> option Json.
Variable JSON_stringify : Json -> string.
Variable ackEvent : string.                (* createAckEvent().toString() *)

(** The three capabilities whose files are not part of this development,
    and the [tool] member [executeModel] inherits from [Tool]. *)
Variables listModels describeModel recommendModel : Tool.
Variable executeModel_tool : Json.

(** [executeModel] as index.ts sees it.  execute-model.ts declares
    [definition] without [static], as a field of the instances, so the
    class itself has no [definition]: [executeModel.definition] is
    [undefined]. *)
Definition executeModel : Tool :=
  {| definition_name := None;
     tool := executeModel_tool;
     execute := ExecuteModel.execute |}.

Definition functions : list Tool :=
  [listModels; describeModel; executeModel; recommendModel].

(** *** The tool-selection request (lines 57-90) *)

Definition model_summary (m : Catalog.Model) : Json :=
  JObj [ ("friendly_name", JStr (Catalog.friendly_name m));
         ("name", JStr (Catalog.name m));
         ("publisher", JStr (Catalog.publisher m));
         ("registry", JStr (Catalog.model_registry m));
         ("description", JStr (Catalog.summary m)) ].

Definition system_message (models : list Catalog.Model) : Message :=
  {| role := "system";
     content := str (String.concat LF
       [ "You are an extension of GitHub Copilot, built to interact with GitHub Models.";
         "GitHub Models is a language model playground, where you can experiment with different models and see how they respond to your prompts.";
         "Here is a list of some of the models available to the user:";
         "<-- LIST OF MODELS -->";
         JSON_stringify (JArr (map model_summary models));
         "<-- END OF LIST OF MODELS -->" ]) |}.

(** [[ system, ...payload.messages ].concat(payload.messages)] *)
Definition toolCallMessages (models : list Catalog.Model) (msgs : list Message)
  : list Message :=
  ((system_message models :: msgs) ++ msgs)%list.

Definition tool_call_params (models : list Catalog.Model) (msgs : list Message)
  : CreateParams :=
  {| req_stream := false;
     req_model := str "gpt-4";
     req_messages := toolCallMessages models msgs;
     req_tool_choice := Some "auto";
     req_tools := Some (map tool functions);
     req_stream_options := None |}.

(** *** The no-tool-call test (lines 93-98)

    [!c[0] || !c[0].message || !c[0].message.tool_calls ||
     !c[0].message.tool_calls[0].function]: an array is truthy even when
    empty, and element 0 of an empty array is [undefined]. *)
Definition no_tool_call (toolCaller : Completion) : Exn + bool :=
  match nth_error (choices toolCaller) 0 with
  | None => inr true
  | Some choice =>
      match message choice with
      | None => inr true
      | Some m =>
          match tool_calls m with
          | None => inr true
          | Some calls =>
              match nth_error calls 0 with
              | None =>
                  inl (TypeError "Cannot read properties of undefined (reading 'function')")
              | Some c =>
                  match function c with
                  | None => inr true
                  | Some _ => inr false
                  end
              end
          end
      end
  end.

(** [toolCaller.choices[0].message.tool_calls[0].function] (line 116),
    read again after the test; line 117 reads [.arguments] of it. *)
Definition functionToCall (toolCaller : Completion) : Exn + FunctionCall :=
  match nth_error (choices toolCaller) 0 with
  | None => inl (TypeError "Cannot read properties of undefined (reading 'message')")
  | Some choice =>
      match message choice with
      | None => inl (TypeError "Cannot read properties of undefined (reading 'tool_calls')")
      | Some m =>
          match tool_calls m with
          | None => inl (TypeError "Cannot read properties of undefined (reading '0')")
          | Some calls =>
              match nth_error calls 0 with
              | None =>
                  inl (TypeError "Cannot read properties of undefined (reading 'function')")
              | Some c =>
                  match function c with
                  | None =>
                      inl (TypeError "Cannot read properties of undefined (reading 'arguments')")
                  | Some f => inr f
                  end
              end
          end
      end
  end.

(** *** Relaying a stream (lines 107-112 and 151-157) *)

Definition data_frame (chunk : Json) : string :=
  "data: " ++ JSON_stringify chunk ++ LF ++ LF.

Definition done_frame : string := "data: [DONE]" ++ LF ++ LF.

(** [for await (const chunk of stream) res.write(...)] over the chunks
    that arrive. *)
Fixpoint forward (cs : list Json) : Run unit :=
  match cs with
  | [] => ret tt
  | chunk :: rest => emit (ResWrite (data_frame chunk)) ;; forward rest
  end.

(** The whole loop: an error of the stream is thrown out of it. *)
Definition for_await (stream : Stream) : Run unit :=
  forward (chunks stream) ;;
  match failure stream with
  | Some e => throw e
  | None => ret tt
  end.

(** *** No tool to call (lines 99-113) *)

Definition fallback_params (msgs : list Message) : CreateParams :=
  {| req_stream := true;
     req_model := str "gpt-4";
     req_messages := msgs;
     req_tool_choice := None;
     req_tools := None;
     req_stream_options := None |}.

Definition fallback (w : World) (msgs : list Message) : Run unit :=
  stream <- call (Create Capi (fallback_params msgs))
                 (capi_create_stream w (fallback_params msgs)) ;;
  for_await stream ;;
  emit (ResWrite done_frame) ;;
  emit (ResEnd None).

(** *** Executing the selected function (lines 119-138)

    The lookup of lines 123-125 tests the classes in the order of
    [functions] and throws at the first one without a [definition]; the
    [catch] takes that error like any other.  [None] stands for the
    [return] of the [catch] block. *)
Definition function_exec (msgs : list Message) (f : FunctionCall) (args : Json)
  : Run (option RunnerResponse) :=
  try_catch
    (found <- lift (find_first (is_named (name f)) functions) ;;
     match found with
     | None => throw (Error "Unknown function")
     | Some funcClass =>
         r <- call (Execute (name f) msgs args)
                   (execute funcClass msgs args) ;;
         ret (Some r)
     end)
    (fun _ => emit (ResStatus 500) ;; emit (ResEnd None) ;; ret None).

(** *** Streaming the answer of the selected model (lines 140-161) *)

Definition answer_params (r : RunnerResponse) : CreateParams :=
  {| req_stream := true;
     req_model := model r;
     req_messages := messages r;
     req_tool_choice := None;
     req_tools := None;
     req_stream_options := Some {| include_usage := false |} |}.

Definition answer (w : World) (r : RunnerResponse) : Run unit :=
  try_catch
    (stream <- call (Create Inference (answer_params r))
                    (inference_create_stream w (answer_params r)) ;;
     for_await stream ;;
     emit (ResWrite done_frame) ;;
     emit (ResEnd None))
    (fun _ => emit (ResStatus 500) ;; emit (ResEnd None)).

(** *** From the tool-selection answer on (lines 93-161) *)

Definition dispatch (w : World) (msgs : list Message) (toolCaller : Completion)
  : Run unit :=
  none <- lift (no_tool_call toolCaller) ;;
  if (none : bool) then fallback w msgs
  else
    f <- lift (functionToCall toolCaller) ;;
    args <- match JSON_parse (arguments f) with
            | None => throw (SyntaxError "JSON.parse")
            | Some v => ret v
            end ;;
    functionCallRes <- function_exec msgs f args ;;
    match functionCallRes with
    | None => ret tt
    | Some r => answer w r
    end.

(** *** The handler (lines 14-162) *)

(** After the three checks: acknowledge, list the models, select. *)
Definition serve (w : World) (msgs : list Message) : Run unit :=
  emit (ResWrite ackEvent) ;;
  models <- call ListModels (listModels_result w) ;;
  toolCaller <- call (Create Capi (tool_call_params models msgs))
                     (capi_create w (tool_call_params models msgs)) ;;
  dispatch w msgs toolCaller.

Definition handler (w : World) (req : Request) : Run unit :=
  match verifyAndParseRequest w (body req) (signature req) (keyID req) (token req) with
  | inl _ => emit (ResStatus 401) ;; emit (ResEnd (Some "Unauthorized"))
  | inr v =>
      if negb (isValidRequest v)
      then emit (ResStatus 401) ;; emit (ResSend "Unauthorized")
      else
        match token req with
        | Some (String _ _) => serve w (Payload.messages (payload v))
        | _ => emit (ResStatus 400) ;; emit (ResEnd None)
        end
  end.


(** *** Describing a run *)

(** What relaying [stream] does to the response. *)
Definition relayed (stream : Stream) : list Event :=
  (map (fun chunk => ResWrite (data_frame chunk)) (chunks stream)
   ++ match failure stream with
      | None => [ResWrite done_frame; ResEnd None]
      | Some _ => []
      end)%list.

(** The request passes the three checks of lines 16-43 and carries the
    conversation [msgs]. *)
Definition accepted (w : World) (req : Request) (msgs : list Message) : Prop :=
  exists v c key,
    verifyAndParseRequest w (body req) (signature req) (keyID req) (token req) = inr v
    /\ isValidRequest v = true
    /\ token req = Some (String c key)
    /\ Payload.messages (payload v) = msgs.

(** The request is accepted, the catalog answers, and the tool-selection
    call answers [toolCaller]. *)
Definition selected (w : World) (req : Request) (msgs : list Message)
           (toolCaller : Completion) : Prop :=
  accepted w req msgs
  /\ exists models,
       listModels_result w = inr models
       /\ capi_create w (tool_call_params models msgs) = inr toolCaller.

(** A request that fails one of the three checks. *)
Definition rejection (r : Run unit) : Prop :=
  r = ([ResStatus 401; ResEnd (Some "Unauthorized")], inr tt)
  \/ r = ([ResStatus 401; ResSend "Unauthorized"], inr tt)
  \/ r = ([ResStatus 400; ResEnd None], inr tt).

Arguments fallback : simpl never.
Arguments answer : simpl never.
Arguments function_exec : simpl never.
Arguments for_await : simpl never.
Arguments functions : simpl never.
Arguments tool_call_params : simpl never.
Arguments fallback_params : simpl never.
Arguments answer_params : simpl never.
Arguments data_frame : simpl never.
Arguments done_frame : simpl never.
Arguments no_tool_call : simpl never.
Arguments functionToCall : simpl never.
Arguments relayed : simpl never.

(** ** Properties of the handler *)

(** *** How the parts run *)

Lemma forward_run (cs : list Json) :
  forward cs = (map (fun chunk => ResWrite (data_frame chunk)) cs, inr tt).
Proof.
  induction cs as [| chunk cs IH]; [reflexivity |].
  cbn. rewrite IH. reflexivity.
Qed.

Lemma for_await_run (s : Stream) :
  for_await s =
    (map (fun chunk => ResWrite (data_frame chunk)) (chunks s),
     match failure s with Some e => inl e | None => inr tt end).
Proof.
  unfold for_await. cbn. rewrite forward_run. cbn.
  destruct (failure s); cbn; rewrite ?app_nil_r; reflexivity.
Qed.

Lemma fallback_run (w : World) (msgs : list Message) :
  fallback w msgs =
    match capi_create_stream w (fallback_params msgs) with
    | inl e => ([Create Capi (fallback_params msgs)], inl e)
    | inr s =>
        (Create Capi (fallback_params msgs) :: relayed s,
         match failure s with Some e => inl e | None => inr tt end)
    end.
Proof.
  unfold fallback, relayed. cbn.
  destruct (capi_create_stream w (fallback_params msgs)) as [e | s]; cbn;
    [reflexivity |].
  rewrite for_await_run. cbn.
  destruct (failure s); cbn; rewrite ?app_nil_r; reflexivity.
Qed.

Lemma answer_run (w : World) (r : RunnerResponse) :
  answer w r =
    match inference_create_stream w (answer_params r) with
    | inl _ => ([Create Inference (answer_params r); ResStatus 500; ResEnd None], inr tt)
    | inr s =>
        ((Create Inference (answer_params r) :: relayed s)
         ++ match failure s with
            | Some _ => [ResStatus 500; ResEnd None]
            | None => []
            end,
         inr tt)%list
    end.
Proof.
  unfold answer, relayed, try_catch. cbn.
  destruct (inference_create_stream w (answer_params r)) as [e | s]; cbn;
    [reflexivity |].
  rewrite for_await_run. cbn.
  destruct (failure s); cbn; rewrite ?app_nil_r; reflexivity.
Qed.

Lemma function_exec_run (msgs : list Message) (f : FunctionCall) (args : Json) :
  function_exec msgs f args =
    match find_first (is_named (name f)) functions with
    | inl _ => ([ResStatus 500; ResEnd None], inr None)
    | inr None => ([ResStatus 500; ResEnd None], inr None)
    | inr (Some funcClass) =>
        match execute funcClass msgs args with
        | inl _ =>
            ([Execute (name f) msgs args; ResStatus 500; ResEnd None], inr None)
        | inr r => ([Execute (name f) msgs args], inr (Some r))
        end
    end.
Proof.
  unfold function_exec, try_catch. cbn.
  destruct (find_first _ functions) as [? | [funcClass |]]; cbn;
    [reflexivity | | reflexivity].
  destruct (execute funcClass msgs args); reflexivity.
Qed.

Lemma dispatch_run (w : World) (msgs : list Message) (c : Completion) :
  dispatch w msgs c =
    match no_tool_call c with
    | inl e => ([], inl e)
    | inr true => fallback w msgs
    | inr false =>
        match functionToCall c with
        | inl e => ([], inl e)
        | inr f =>
            match JSON_parse (arguments f) with
            | None => ([], inl (SyntaxError "JSON.parse"))
            | Some args =>
                match find_first (is_named (name f)) functions with
                | inl _ => ([ResStatus 500; ResEnd None], inr tt)
                | inr None => ([ResStatus 500; ResEnd None], inr tt)
                | inr (Some funcClass) =>
                    match execute funcClass msgs args with
                    | inl _ =>
                        ([Execute (name f) msgs args; ResStatus 500; ResEnd None],
                         inr tt)
                    | inr r =>
                        (Execute (name f) msgs args :: fst (answer w r),
                         snd (answer w r))
                    end
                end
            end
        end
    end.
Proof.
  unfold dispatch. cbn.
  destruct (no_tool_call c) as [e | [|]]; cbn; [reflexivity | | ].
  - destruct (fallback w msgs); reflexivity.
  - destruct (functionToCall c) as [e | f]; cbn; [reflexivity |].
    destruct (JSON_parse (arguments f)) as [args |]; cbn; [| reflexivity].
    rewrite function_exec_run.
    destruct (find_first _ functions) as [? | [funcClass |]]; cbn;
      [reflexivity | | reflexivity].
    destruct (execute funcClass msgs args); reflexivity.
Qed.

Lemma serve_run (w : World) (msgs : list Message) :
  serve w msgs =
    match listModels_result w with
    | inl e => ([ResWrite ackEvent; ListModels], inl e)
    | inr models =>
        match capi_create w (tool_call_params models msgs) with
        | inl e =>
            ([ResWrite ackEvent; ListModels;
              Create Capi (tool_call_params models msgs)], inl e)
        | inr c =>
            (ResWrite ackEvent :: ListModels
               :: Create Capi (tool_call_params models msgs) :: fst (dispatch w msgs c),
             snd (dispatch w msgs c))
        end
    end.
Proof.
  unfold serve. cbn.
  destruct (listModels_result w) as [e | models]; cbn; [reflexivity |].
  destruct (capi_create w (tool_call_params models msgs)); reflexivity.
Qed.

Lemma handler_cases (w : World) (req : Request) :
  rejection (handler w req)
  \/ exists msgs, accepted w req msgs /\ handler w req = serve w msgs.
Proof.
  unfold handler, rejection, accepted.
  destruct (verifyAndParseRequest w _ _ _ _) as [e | v] eqn:Hv; [auto |].
  destruct (isValidRequest v) eqn:Hvalid; cbn; [| auto].
  destruct (token req) as [[| c key] |] eqn:Htoken; [auto | | auto].
  right. exists (Payload.messages (payload v)). split; [| reflexivity].
  exists v, c, key. rewrite <- Htoken. auto.
Qed.

Lemma handler_accepted (w : World) (req : Request) (msgs : list Message) :
  accepted w req msgs -> handler w req = serve w msgs.
Proof.
  intros (v & c & key & Hv & Hvalid & Htoken & Hmsgs).
  unfold handler. rewrite Hv, Hvalid, Htoken, Hmsgs. reflexivity.
Qed.

(** *** Reading the trace of a relayed stream *)

Arguments response : simpl never.
Arguments streaming_requests : simpl never.
Arguments executions : simpl never.

Lemma response_cons (e : Event) (t : list Event) :
  response (e :: t) = if is_response e then e :: response t else response t.
Proof. reflexivity. Qed.

Lemma streaming_requests_cons (e : Event) (t : list Event) :
  streaming_requests (e :: t)
  = (match e with
     | Create client p => if req_stream p then [(client, p)] else []
     | _ => []
     end ++ streaming_requests t)%list.
Proof. reflexivity. Qed.

Lemma executions_cons (e : Event) (t : list Event) :
  executions (e :: t)
  = (match e with
     | Execute capability conversation args => [(capability, conversation, args)]
     | _ => []
     end ++ executions t)%list.
Proof. reflexivity. Qed.

Lemma tool_call_params_stream models msgs :
  req_stream (tool_call_params models msgs) = false.
Proof. reflexivity. Qed.

Lemma fallback_params_stream msgs : req_stream (fallback_params msgs) = true.
Proof. reflexivity. Qed.

Lemma answer_params_stream r : req_stream (answer_params r) = true.
Proof. reflexivity. Qed.

Lemma streaming_requests_app (t t' : list Event) :
  streaming_requests (t ++ t') = (streaming_requests t ++ streaming_requests t')%list.
Proof. apply flat_map_app. Qed.

Lemma executions_app (t t' : list Event) :
  executions (t ++ t') = (executions t ++ executions t')%list.
Proof. apply flat_map_app. Qed.

Lemma response_app (t t' : list Event) :
  response (t ++ t') = (response t ++ response t')%list.
Proof. apply filter_app. Qed.

Lemma response_frames (cs : list Json) :
  response (map (fun chunk => ResWrite (data_frame chunk)) cs)
  = map (fun chunk => ResWrite (data_frame chunk)) cs.
Proof.
  induction cs as [| c cs IH]; [reflexivity |].
  cbn [map]. rewrite response_cons, IH. reflexivity.
Qed.

Lemma response_relayed (s : Stream) : response (relayed s) = relayed s.
Proof.
  unfold relayed. rewrite response_app, response_frames.
  destruct (failure s); reflexivity.
Qed.

Lemma streaming_requests_relayed (s : Stream) : streaming_requests (relayed s) = [].
Proof.
  unfold relayed, streaming_requests. rewrite flat_map_app.
  replace (flat_map _ (map _ (chunks s))) with (@nil (Client * CreateParams)).
  - destruct (failure s); reflexivity.
  - induction (chunks s) as [| c cs IH]; cbn; [| rewrite <- IH]; reflexivity.
Qed.

Lemma executions_relayed (s : Stream) : executions (relayed s) = [].
Proof.
  unfold relayed, executions. rewrite flat_map_app.
  replace (flat_map _ (map _ (chunks s))) with (@nil (string * list Message * Json)).
  - destruct (failure s); reflexivity.
  - induction (chunks s) as [| c cs IH]; cbn; [| rewrite <- IH]; reflexivity.
Qed.

(** Every way the handler can run, one goal each: the three rejections,
    then the failures and the completions of an accepted request. *)
Ltac on_catalog :=
  match goal with
  | |- context [match listModels_result ?w with _ => _ end] =>
      destruct (listModels_result w) as [? | ?models] eqn:?Hcatalog
  end.
Ltac on_selection :=
  match goal with
  | |- context [match capi_create ?w ?p with _ => _ end] =>
      destruct (capi_create w p) as [? | ?toolCaller] eqn:?Hselection
  end.
Ltac on_test :=
  match goal with
  | |- context [match no_tool_call ?c with _ => _ end] =>
      destruct (no_tool_call c) as [? | [|]] eqn:?Htest
  end.
Ltac on_call :=
  match goal with
  | |- context [match functionToCall ?c with _ => _ end] =>
      destruct (functionToCall c) as [? | ?f] eqn:?Hcall
  end.
Ltac on_parse :=
  match goal with
  | |- context [match JSON_parse ?a with _ => _ end] =>
      destruct (JSON_parse a) as [?args |] eqn:?Hparse
  end.
Ltac on_find :=
  match goal with
  | |- context [match find_first ?p functions with _ => _ end] =>
      destruct (find_first p functions) as [? | [?funcClass |]] eqn:?Hfind
  end.
Ltac on_execute :=
  match goal with
  | |- context [match execute ?t ?m ?a with _ => _ end] =>
      destruct (execute t m a) as [? | ?r] eqn:?Hexecute
  end.
Ltac on_stream :=
  match goal with
  | |- context [match capi_create_stream ?w ?p with _ => _ end] =>
      destruct (capi_create_stream w p) as [? | ?s] eqn:?Hstream
  | |- context [match inference_create_stream ?w ?p with _ => _ end] =>
      destruct (inference_create_stream w p) as [? | ?s] eqn:?Hstream
  end.
Ltac on_failure :=
  match goal with
  | |- context [match failure ?s with _ => _ end] =>
      destruct (failure s) eqn:?Hfailure
  end.

Ltac paths w req :=
  let H := fresh "Hrun" in
  destruct (handler_cases w req) as [[H | [H | H]] | (?msgs & ?Haccepted & H)];
  rewrite H; clear H;
  [ | | |
    rewrite serve_run; on_catalog;
    [ | on_selection;
        [ | rewrite dispatch_run; on_test;
            [ | rewrite fallback_run; on_stream; [ | on_failure ]
              | on_call;
                [ | on_parse;
                    [ on_find;
                      [ | on_execute;
                          [ | rewrite answer_run; on_stream; [ | on_failure ] ]
                        | ]
                    | ] ] ] ] ] ];
  unfold trace, outcome; cbn [fst snd].


(** Computing what a trace shows. *)
Ltac observe :=
  repeat (rewrite ?response_cons, ?response_app, ?response_relayed,
            ?streaming_requests_cons, ?streaming_requests_app,
            ?streaming_requests_relayed,
            ?executions_cons, ?executions_app, ?executions_relayed,
            ?tool_call_params_stream, ?fallback_params_stream, ?answer_params_stream;
          change (response []) with (@nil Event);
          change (streaming_requests []) with (@nil (Client * CreateParams));
          change (executions []) with (@nil (string * list Message * Json));
          cbn [is_response app]).

Lemma handler_selected (w : World) (req : Request) (msgs : list Message)
      (toolCaller : Completion) :
  selected w req msgs toolCaller ->
  exists models,
    handler w req =
      (ResWrite ackEvent :: ListModels
         :: Create Capi (tool_call_params models msgs)
         :: fst (dispatch w msgs toolCaller),
       snd (dispatch w msgs toolCaller)).
Proof.
  intros (Haccepted & models & Hcatalog & Hselection).
  exists models.
  rewrite (handler_accepted Haccepted), serve_run, Hcatalog, Hselection.
  reflexivity.
Qed.

(** The test of lines 93-98 is false exactly when line 116 finds a
    function to call. *)
Lemma functionToCall_tested (c : Completion) :
  no_tool_call c = inr false <-> exists f, functionToCall c = inr f.
Proof.
  unfold functionToCall, no_tool_call.
  destruct (nth_error (choices c) 0) as [choice |];
    [| split; [discriminate | intros (f & H); discriminate]].
  destruct (message choice) as [m |];
    [| split; [discriminate | intros (f & H); discriminate]].
  destruct (tool_calls m) as [calls |];
    [| split; [discriminate | intros (f & H); discriminate]].
  destruct (nth_error calls 0) as [call |];
    [| split; [discriminate | intros (f & H); discriminate]].
  destruct (function call) as [f |];
    [| split; [discriminate | intros (f & H); discriminate]].
  split; [exists f; reflexivity | reflexivity].
Qed.

(** *** The claims *)

(** C1. For every pair of a model and an instruction, [execute] returns
    the model as target and exactly two messages: the system message that
    asks the target to begin by naming its own language model, then a user
    message holding the instruction unchanged.  The conversation plays no
    part: whatever the arguments are, two conversations give the same
    result. *)
Theorem execute_model_rewrite
        (conversation conversation' : list Message) (target instruction : string) :
  ExecuteModel.execute conversation (ExecuteModel.args target instruction)
  = inr {| model := str target;
           messages :=
             [ {| role := "system";
                  content :=
                    str "Begin your response by telling the user the name of your language model." |};
               {| role := "user"; content := str instruction |} ] |}
  /\ forall args : Json,
      ExecuteModel.execute conversation' args = ExecuteModel.execute conversation args.
Proof. split; reflexivity. Qed.

(** The fallback request: it goes to the Copilot backend with model
    "gpt-4" and with the inbound messages as they came, no system message
    in front.  Whenever the test of lines 93-98 does not find a call, no
    streaming request other than this one is issued; when the test says
    there is none, this one is issued, once.  When the test throws, none
    is. *)
Lemma fallback_streams_inbound_messages
        (w : World) (req : Request) (msgs : list Message) (toolCaller : Completion) :
  selected w req msgs toolCaller ->
  no_tool_call toolCaller <> inr false ->
  let original :=
    {| req_stream := true;
       req_model := str "gpt-4";
       req_messages := msgs;
       req_tool_choice := None;
       req_tools := None;
       req_stream_options := None |} in
  (forall client p,
      In (client, p) (streaming_requests (trace (handler w req))) ->
      client = Capi /\ p = original)
  /\ (no_tool_call toolCaller = inr true ->
      streaming_requests (trace (handler w req)) = [(Capi, original)]).
Proof.
  intros Hselected Htest original.
  destruct (handler_selected Hselected) as (models & ->).
  unfold trace. cbn [fst]. rewrite dispatch_run.
  destruct (no_tool_call toolCaller) as [e | [|]]; [| | congruence].
  - split; [| discriminate]. observe. intros client p [].
  - rewrite fallback_run.
    destruct (capi_create_stream w (fallback_params msgs)); cbn [fst]; observe;
      (split; [intros client p [H | []]; inversion H; auto | reflexivity]).
Qed.


Lemma dispatch_answering (w : World) (c : Completion) (msgs : list Message)
      (toolCaller : Completion) :
  dispatch (answering w c) msgs toolCaller = dispatch w msgs toolCaller.
Proof. rewrite !dispatch_run, !fallback_run. reflexivity. Qed.

(** C3. At most one capability is executed per request.  When the
    tool-selection answer offers several tool calls, the handler runs
    exactly as it does when only the first is offered; and any capability
    it executes is the one the first call names, on the first call's
    parsed arguments. *)
Theorem first_tool_call_wins (w : World) (req : Request) :
  length (executions (trace (handler w req))) <= 1
  /\ forall (first : ToolCall) (rest : list ToolCall) (others : list Choice),
      let offered calls :=
        {| choices := {| message := Some {| tool_calls := Some calls |} |} :: others |} in
      handler (answering w (offered (first :: rest))) req
      = handler (answering w (offered [first])) req
      /\ forall capability conversation args,
          In (capability, conversation, args)
             (executions (trace (handler (answering w (offered (first :: rest))) req))) ->
          exists f,
            function first = Some f
            /\ name f = capability
            /\ JSON_parse (arguments f) = Some args.
Proof.
  split.
  - paths w req; observe; cbn [length]; lia.
  - intros first rest others offered. split.
    + unfold handler. cbn [verifyAndParseRequest answering].
      destruct (verifyAndParseRequest w _ _ _ _) as [e | v]; [reflexivity |].
      destruct (isValidRequest v); cbn [negb]; [| reflexivity].
      destruct (token req) as [[| c key] |]; [reflexivity | | reflexivity].
      rewrite !serve_run. cbn [listModels_result capi_create answering].
      destruct (listModels_result w) as [e | models]; [reflexivity |].
      rewrite !dispatch_answering, !dispatch_run. reflexivity.
    + intros capability conversation arguments.
      paths (answering w (offered (first :: rest))) req; observe;
        try (intros []; fail).
      all: intros [H | []]; inversion H; subst; clear H.
      all: cbn in Hselection; inversion Hselection; subst toolCaller.
      all: unfold functionToCall, offered in Hcall; cbn in Hcall.
      all: destruct (function first) as [f' |]; [| discriminate].
      all: inversion Hcall; subst f'.
      all: exists f; repeat split; assumption.
Qed.

(** A tool call whose arguments do not parse: the [SyntaxError] of line
    117 is thrown before the [try] of line 121 and leaves the handler. *)
Lemma malformed_arguments_escape
      (w : World) (req : Request) (msgs : list Message) (toolCaller : Completion)
      (f : FunctionCall) :
  selected w req msgs toolCaller ->
  functionToCall toolCaller = inr f ->
  JSON_parse (arguments f) = None ->
  exists models,
    handler w req =
      ([ResWrite ackEvent; ListModels; Create Capi (tool_call_params models msgs)],
       inl (SyntaxError "JSON.parse")).
Proof.
  intros Hselected Hcall Hparse.
  destruct (handler_selected Hselected) as (models & ->).
  exists models. rewrite dispatch_run.
  rewrite (proj2 (functionToCall_tested toolCaller) (ex_intro _ f Hcall)).
  rewrite Hcall, Hparse. reflexivity.
Qed.

(** The test of lines 93-98 on a [tool_calls] array that is present and
    empty: [tool_calls[0]] is [undefined], and reading [.function] of it
    throws. *)
Lemma no_tool_call_empty (others : list Choice) :
  no_tool_call {| choices := {| message := Some {| tool_calls := Some [] |} |} :: others |}
  = inl (TypeError "Cannot read properties of undefined (reading 'function')").
Proof. reflexivity. Qed.

(** The messages of the tool-selection request: the system message, the
    conversation, and the conversation again. *)
Lemma tool_selection_request
      (w : World) (req : Request) (msgs : list Message) (toolCaller : Completion) :
  selected w req msgs toolCaller ->
  exists models,
    In (Create Capi (tool_call_params models msgs)) (trace (handler w req))
    /\ req_messages (tool_call_params models msgs)
       = (system_message models :: msgs ++ msgs)%list.
Proof.
  intros Hselected. destruct (handler_selected Hselected) as (models & ->).
  exists models. split; [right; right; left; reflexivity | reflexivity].
Qed.

Lemma toolCallMessages_length (models : list Catalog.Model) (msgs : list Message) :
  length (toolCallMessages models msgs) = 1 + 2 * length msgs.
Proof. unfold toolCallMessages. cbn [app length]. rewrite length_app. lia. Qed.

(** C6. When the stream a streaming request is answered with ends without
    an error after N chunks, the response receives, after the
    acknowledgement, exactly the N frames ["data: " + JSON + two line
    feeds], one per chunk and in the order of the chunks, then the frame
    ["data: [DONE]"], and is then ended; nothing else is done to it. *)
Theorem chunks_relayed_in_order
        (w : World) (req : Request) (client : Client) (p : CreateParams) (s : Stream) :
  In (client, p) (streaming_requests (trace (handler w req))) ->
  stream_answer w client p = inr s ->
  failure s = None ->
  response (trace (handler w req))
  = (ResWrite ackEvent
       :: map (fun chunk => ResWrite ("data: " ++ JSON_stringify chunk ++ LF ++ LF))
              (chunks s)
       ++ [ResWrite ("data: [DONE]" ++ LF ++ LF); ResEnd None])%list.
Proof.
  intros Hrequest Hanswer Hend. revert Hrequest.
  paths w req; observe; try (intros []; fail).
  all: intros [H | []]; inversion H; subst; clear H.
  all: cbn [stream_answer] in Hanswer; try congruence.
  all: assert (s0 = s) by congruence; subst s0; try congruence.
  all: unfold relayed; rewrite Hend, ?app_nil_r; reflexivity.
Qed.

(** Inside the [try] of lines 121-137: when the lookup throws or finds
    nothing, or the class it finds fails to execute, the handler answers
    500 and ends the response; nothing but the acknowledgement was written
    to it, no streaming request is issued, and the handler returns.  The
    [try] is reached only once the arguments have parsed. *)
Lemma failed_capability_aborts
      (w : World) (req : Request) (msgs : list Message) (toolCaller : Completion)
      (f : FunctionCall) (args : Json) :
  selected w req msgs toolCaller ->
  functionToCall toolCaller = inr f ->
  JSON_parse (arguments f) = Some args ->
  (forall funcClass, find_first (is_named (name f)) functions <> inr (Some funcClass))
  \/ (exists funcClass e,
        find_first (is_named (name f)) functions = inr (Some funcClass)
        /\ execute funcClass msgs args = inl e) ->
  response (trace (handler w req)) = [ResWrite ackEvent; ResStatus 500; ResEnd None]
  /\ streaming_requests (trace (handler w req)) = []
  /\ outcome (handler w req) = Returned.
Proof.
  intros Hselected Hcall Hparse Hfails.
  destruct (handler_selected Hselected) as (models & ->).
  rewrite dispatch_run.
  rewrite (proj2 (functionToCall_tested toolCaller) (ex_intro _ f Hcall)).
  rewrite Hcall, Hparse.
  destruct Hfails as [Hmissing | (funcClass & e & Hfind & Hexecute)].
  - destruct (find_first _ functions) as [? | [funcClass |]] eqn:Hfind;
      [| destruct (Hmissing funcClass eq_refl) |];
      unfold trace, outcome; cbn [fst snd]; observe; auto.
  - rewrite Hfind, Hexecute. unfold trace, outcome. cbn [fst snd]. observe. auto.
Qed.

(** C9, as amended.  A request that passes the three checks (it verifies,
    its signature is valid and it carries a non-empty token) is
    acknowledged first: the acknowledgement is the first thing the handler
    does, before it lists the models and before any completion request,
    and every later write to the response is a frame of a streamed chunk
    or the final frame. *)
Theorem accepted_request_acknowledged_first
        (w : World) (req : Request) (msgs : list Message) :
  accepted w req msgs ->
  exists rest,
    trace (handler w req) = ResWrite ackEvent :: ListModels :: rest
    /\ (forall client p, In (Create client p) (trace (handler w req)) ->
                         In (Create client p) rest)
    /\ forall data,
        In (ResWrite data) rest ->
        data = "data: [DONE]" ++ LF ++ LF
        \/ exists chunk, data = "data: " ++ JSON_stringify chunk ++ LF ++ LF.
Proof.
  intros Haccepted.
  assert (Hframes : forall s data,
             In (ResWrite data) (relayed s) ->
             data = "data: [DONE]" ++ LF ++ LF
             \/ exists chunk, data = "data: " ++ JSON_stringify chunk ++ LF ++ LF).
  { intros s data. unfold relayed. rewrite in_app_iff, in_map_iff.
    intros [(chunk & H & _) | H].
    - inversion H. right. exists chunk. reflexivity.
    - destruct (failure s); [destruct H |].
      destruct H as [H | [H | []]]; [| discriminate]. inversion H. auto. }
  assert (Hrest : exists rest,
             trace (handler w req) = ResWrite ackEvent :: ListModels :: rest
             /\ forall data,
                 In (ResWrite data) rest ->
                 data = "data: [DONE]" ++ LF ++ LF
                 \/ exists chunk, data = "data: " ++ JSON_stringify chunk ++ LF ++ LF);
    [| destruct Hrest as (rest & Htrace & Hwrites); exists rest;
       split; [exact Htrace | split; [| exact Hwrites]];
       rewrite Htrace; intros client p [H | [H | H]];
       [discriminate | discriminate | exact H] ].
  rewrite (handler_accepted Haccepted), serve_run.
  destruct (listModels_result w) as [? | models];
    [eexists; split; [reflexivity | intros data []] |].
  destruct (capi_create w _) as [? | toolCaller];
    [eexists; split; [reflexivity | intros data [H | []]; discriminate] |].
  rewrite dispatch_run.
  unfold trace; cbn [fst]; eexists; split; [reflexivity |].
  intros data [H | H]; [discriminate |]. revert H.
  destruct (no_tool_call toolCaller) as [? | [|]]; [intros [] | | ].
  - rewrite fallback_run.
    destruct (capi_create_stream w _) as [? | s]; cbn [fst];
      (intros [H | H]; [discriminate |]); [destruct H | eauto].
  - destruct (functionToCall toolCaller) as [? | f]; [intros [] |].
    destruct (JSON_parse (arguments f)) as [args |]; [| intros []].
    destruct (find_first _ functions) as [? | [funcClass |]];
      [intros [H | [H | []]]; discriminate | | intros [H | [H | []]]; discriminate].
    destruct (execute funcClass msgs args) as [? | r];
      [intros [H | [H | [H | []]]]; discriminate |].
    rewrite answer_run.
    destruct (inference_create_stream w _) as [? | s]; cbn [fst];
      (intros [H | H]; [discriminate |]); revert H;
      [intros [H | [H | [H | []]]]; discriminate |].
    intros [H | H]; [discriminate |].
    apply in_app_or in H. destruct H as [H | H]; [eauto |].
    destruct (failure s); [destruct H as [H | [H | []]]; discriminate | destruct H].
Qed.

(** C10. No streaming request asks for usage reporting, on either path:
    the request for the selected model passes
    [stream_options: { include_usage: false }], and the fallback request
    passes no [stream_options] at all. *)
Theorem streaming_without_usage_reporting
        (w : World) (req : Request) (client : Client) (p : CreateParams) :
  In (client, p) (streaming_requests (trace (handler w req))) ->
  usage_reporting p = false
  /\ ((client = Inference
       /\ req_stream_options p = Some {| include_usage := false |})
      \/ (client = Capi /\ req_stream_options p = None)).
Proof.
  paths w req; observe; try (intros []; fail).
  all: intros [H | []]; inversion H; subst; clear H.
  all: split; [reflexivity | auto].
Qed.


(** *** More of the handler and of [executeModel] *)

Arguments calls : simpl never.

Lemma calls_cons (e : Event) (t : list Event) :
  calls (e :: t) = if is_response e then calls t else e :: calls t.
Proof. unfold calls. cbn [filter]. destruct (is_response e); reflexivity. Qed.

Lemma calls_app (t t' : list Event) : calls (t ++ t') = (calls t ++ calls t')%list.
Proof. apply filter_app. Qed.

Lemma calls_relayed (s : Stream) : calls (relayed s) = [].
Proof.
  unfold relayed. rewrite calls_app.
  replace (calls (map _ (chunks s))) with (@nil Event).
  - destruct (failure s); reflexivity.
  - induction (chunks s) as [| c cs IH]; [reflexivity |].
    cbn [map]. rewrite calls_cons. exact IH.
Qed.

Ltac observe_calls :=
  repeat (rewrite ?calls_cons, ?calls_app, ?calls_relayed;
          change (calls []) with (@nil Event);
          cbn [is_response app]).

(** The run of an accepted request whose selected capability is found and
    executes. *)
Lemma capability_run
      (w : World) (req : Request) (msgs : list Message) (toolCaller : Completion)
      (f : FunctionCall) (args : Json) (funcClass : Tool) (r : RunnerResponse) :
  selected w req msgs toolCaller ->
  functionToCall toolCaller = inr f ->
  JSON_parse (arguments f) = Some args ->
  find_first (is_named (name f)) functions = inr (Some funcClass) ->
  execute funcClass msgs args = inr r ->
  exists models,
    handler w req =
      (ResWrite ackEvent :: ListModels
         :: Create Capi (tool_call_params models msgs)
         :: Execute (name f) msgs args :: fst (answer w r),
       snd (answer w r)).
Proof.
  intros Hselected Hcall Hparse Hfind Hexecute.
  destruct (handler_selected Hselected) as (models & ->).
  exists models. rewrite dispatch_run.
  rewrite (proj2 (functionToCall_tested toolCaller) (ex_intro _ f Hcall)).
  rewrite Hcall, Hparse, Hfind, Hexecute. reflexivity.
Qed.

(** What the lookup of lines 123-125 can find in this registry: the
    classes are tested in order and [executeModel], the third, has no
    [definition], so a name that the first two do not carry makes the
    lookup throw there. *)
Lemma lookup_reaches_two_classes (wanted : string) :
  find_first (is_named wanted) functions
  = match is_named wanted listModels with
    | inl e => inl e
    | inr true => inr (Some listModels)
    | inr false =>
        match is_named wanted describeModel with
        | inl e => inl e
        | inr true => inr (Some describeModel)
        | inr false =>
            inl (TypeError "Cannot read properties of undefined (reading 'name')")
        end
    end.
Proof.
  reflexivity.
Qed.

(** X1. [execute] fails on [null] only, with the [TypeError] of reading
    [model] of [null].  On every other value it succeeds with the two
    messages, the target and the user content being whatever the
    properties [model] and [instruction] hold, [undefined] included:
    nothing is validated. *)
Theorem execute_model_fails_on_null_only (conversation : list Message) :
  ExecuteModel.execute conversation JNull
  = inl (TypeError "Cannot read properties of null (reading 'model')")
  /\ forall args,
      args <> JNull ->
      exists target text,
        get_property args "model" = inr target
        /\ get_property args "instruction" = inr text
        /\ ExecuteModel.execute conversation args
           = inr {| model := target;
                    messages :=
                      [ {| role := "system";
                           content :=
                             str "Begin your response by telling the user the name of your language model." |};
                        {| role := "user"; content := text |} ] |}.
Proof.
  split; [reflexivity |].
  intros args Hargs.
  destruct args; try congruence; eexists; eexists; repeat split.
Qed.

(** X2. When the lookup of lines 123-125 finds the selected capability
    (it reached a class carrying that name without throwing on the way)
    and its [execute] succeeds, it is executed once, on the inbound
    conversation and the parsed arguments, and the one streaming request
    goes to the inference backend with the model and the messages
    [execute] returned. *)
Theorem capability_result_is_streamed
        (w : World) (req : Request) (msgs : list Message) (toolCaller : Completion)
        (f : FunctionCall) (args : Json) (funcClass : Tool) (r : RunnerResponse) :
  selected w req msgs toolCaller ->
  functionToCall toolCaller = inr f ->
  JSON_parse (arguments f) = Some args ->
  find_first (is_named (name f)) functions = inr (Some funcClass) ->
  execute funcClass msgs args = inr r ->
  executions (trace (handler w req)) = [(name f, msgs, args)]
  /\ streaming_requests (trace (handler w req))
     = [(Inference,
         {| req_stream := true;
            req_model := model r;
            req_messages := messages r;
            req_tool_choice := None;
            req_tools := None;
            req_stream_options := Some {| include_usage := false |} |})].
Proof.
  intros Hselected Hcall Hparse Hfind Hexecute.
  destruct (capability_run Hselected Hcall Hparse Hfind Hexecute) as (models & ->).
  unfold trace. cbn [fst]. rewrite answer_run.
  destruct (inference_create_stream w (answer_params r)) as [? | s]; cbn [fst];
    [| destruct (failure s)]; observe; split; reflexivity.
Qed.

(** X3. [execute_model] is never dispatched, nor is any capability
    listed after it.  When the first tool call carries a name that neither
    [listModels] nor [describeModel] has (such as [execute_model]) and its
    arguments parse, the lookup throws at [executeModel], whose class has
    no [definition]; the [catch] answers 500 and ends the response, nothing
    is executed and nothing is streamed. *)
Theorem execute_model_is_never_dispatched
        (w : World) (req : Request) (msgs : list Message) (toolCaller : Completion)
        (f : FunctionCall) (args : Json) :
  selected w req msgs toolCaller ->
  functionToCall toolCaller = inr f ->
  JSON_parse (arguments f) = Some args ->
  definition_name listModels <> Some (name f) ->
  definition_name describeModel <> Some (name f) ->
  response (trace (handler w req)) = [ResWrite ackEvent; ResStatus 500; ResEnd None]
  /\ executions (trace (handler w req)) = []
  /\ streaming_requests (trace (handler w req)) = []
  /\ outcome (handler w req) = Returned.
Proof.
  intros Hselected Hcall Hparse Hfirst Hsecond.
  destruct (handler_selected Hselected) as (models & ->).
  rewrite dispatch_run.
  rewrite (proj2 (functionToCall_tested toolCaller) (ex_intro _ f Hcall)).
  rewrite Hcall, Hparse, lookup_reaches_two_classes.
  unfold is_named.
  destruct (definition_name listModels) as [first |]; [| repeat split].
  destruct (String.eqb_spec first (name f)) as [-> | _]; [congruence |].
  destruct (definition_name describeModel) as [second |]; [| repeat split].
  destruct (String.eqb_spec second (name f)) as [-> | _]; [congruence |].
  repeat split.
Qed.

(** X4. A failure of the inference stream is caught: whether the request
    itself fails or the stream breaks after some chunks, the frames of the
    chunks that arrived are followed by [res.status(500).end()], there is
    no [DONE] frame, and the handler returns. *)
Theorem inference_stream_failure_caught
        (w : World) (req : Request) (params : CreateParams)
        (delivered : list Json) (err : Exn) :
  In (Inference, params) (streaming_requests (trace (handler w req))) ->
  interrupted (inference_create_stream w params) = Some (delivered, err) ->
  response (trace (handler w req))
  = (ResWrite ackEvent
       :: map (fun chunk => ResWrite ("data: " ++ JSON_stringify chunk ++ LF ++ LF))
              delivered
       ++ [ResStatus 500; ResEnd None])%list
  /\ outcome (handler w req) = Returned.
Proof.
  intros Hrequest Hbroken. revert Hrequest.
  paths w req; observe; try (intros []; fail).
  all: intros [H | []]; inversion H; subst; clear H.
  all: unfold interrupted in Hbroken; rewrite Hstream in Hbroken.
  all: try rewrite Hfailure in Hbroken.
  all: inversion Hbroken; subst; clear Hbroken.
  all: unfold relayed; rewrite ?Hfailure, ?app_nil_r; split; reflexivity.
Qed.

(** X5. A failure of the fallback stream is not caught: the frames of the
    chunks that arrived are written, then the error leaves the handler; no
    [DONE] frame is written, no status is set and the response is not
    ended. *)
Theorem fallback_stream_failure_escapes
        (w : World) (req : Request) (params : CreateParams)
        (delivered : list Json) (err : Exn) :
  In (Capi, params) (streaming_requests (trace (handler w req))) ->
  interrupted (capi_create_stream w params) = Some (delivered, err) ->
  response (trace (handler w req))
  = ResWrite ackEvent
      :: map (fun chunk => ResWrite ("data: " ++ JSON_stringify chunk ++ LF ++ LF))
             delivered
  /\ outcome (handler w req) = Uncaught err.
Proof.
  intros Hrequest Hbroken. revert Hrequest.
  paths w req; observe; try (intros []; fail).
  all: intros [H | []]; inversion H; subst; clear H.
  all: unfold interrupted in Hbroken; rewrite Hstream in Hbroken.
  all: try rewrite Hfailure in Hbroken.
  all: inversion Hbroken; subst; clear Hbroken.
  all: unfold relayed; rewrite ?Hfailure, ?app_nil_r; split; reflexivity.
Qed.

Lemma closed_last_frames (cs : list Json) (ops : list Event) :
  closed_last (map (fun chunk => ResWrite (data_frame chunk)) cs ++ ops)
  = closed_last ops.
Proof. induction cs as [| c cs IH]; [reflexivity | exact IH]. Qed.

Lemma closed_last_split (ops before after : list Event) (e : Event) :
  closed_last ops = true ->
  ops = (before ++ e :: after)%list ->
  is_closing e = true ->
  after = [].
Proof.
  revert ops. induction before as [| b before IH]; intros ops Hclosed -> He.
  - cbn in Hclosed. rewrite He in Hclosed.
    destruct after; [reflexivity | discriminate].
  - cbn in Hclosed. destruct (is_closing b).
    + destruct before; discriminate.
    + exact (IH _ Hclosed eq_refl He).
Qed.

Lemma handler_closed_last (w : World) (req : Request) :
  closed_last (response (trace (handler w req))) = true.
Proof.
  paths w req; observe; unfold relayed; rewrite ?Hfailure;
    cbn [closed_last is_closing];
    rewrite <- ?app_assoc, ?closed_last_frames; reflexivity.
Qed.

(** X6. Once the response is ended nothing more is done to it: in every
    run, an operation that ends the response ([res.end] or [res.send]) is
    the last operation on it.  In particular it is ended at most once and
    never written to afterwards. *)
Theorem nothing_after_the_response_ends
        (w : World) (req : Request) (before after : list Event) (e : Event) :
  response (trace (handler w req)) = (before ++ e :: after)%list ->
  is_closing e = true ->
  after = [].
Proof.
  intros Hsplit He.
  eapply closed_last_split;
    [apply (handler_closed_last w req) | exact Hsplit | exact He].
Qed.

Lemma existsb_closing_frames (cs : list Json) (ops : list Event) :
  existsb is_closing (map (fun chunk => ResWrite (data_frame chunk)) cs ++ ops)
  = existsb is_closing ops.
Proof. induction cs as [| c cs IH]; [reflexivity | exact IH]. Qed.

(** X7. The handler returns exactly when it has ended the response: every
    run that returns has ended it, and every run that ends with an
    exception leaving the handler has left the response open. *)
Theorem returns_iff_response_ended (w : World) (req : Request) :
  outcome (handler w req) = Returned
  <-> existsb is_closing (response (trace (handler w req))) = true.
Proof.
  paths w req; observe; unfold relayed; rewrite ?Hfailure;
    cbn [existsb is_closing orb];
    rewrite <- ?app_assoc, ?existsb_closing_frames; cbn [existsb is_closing orb app];
    split; (reflexivity || discriminate).
Qed.

(** X8. The calls of a run come in one order and at most once each: the
    catalog, then the tool-selection request, then either one streaming
    request to the Copilot backend (the fallback) or one capability
    execution, which alone can be followed by one streaming request, to
    the inference backend.  So a run never streams twice, never executes a
    capability on the fallback path, and never streams from the Copilot
    backend after an execution. *)
Theorem calls_in_order (w : World) (req : Request) :
  let made := calls (trace (handler w req)) in
  made = []
  \/ made = [ListModels]
  \/ exists selection,
      req_stream selection = false
      /\ (made = [ListModels; Create Capi selection]
          \/ (exists p,
                req_stream p = true
                /\ made = [ListModels; Create Capi selection; Create Capi p])
          \/ exists capability conversation args,
              made = [ListModels; Create Capi selection;
                      Execute capability conversation args]
              \/ exists p,
                  req_stream p = true
                  /\ made = [ListModels; Create Capi selection;
                             Execute capability conversation args;
                             Create Inference p]).
Proof.
  paths w req; observe_calls; cbv zeta; auto.
  all: right; right; exists (tool_call_params models msgs); split; [reflexivity |].
  all: try (left; reflexivity).
  all: try (right; left; exists (fallback_params msgs); split; reflexivity).
  all: right; right; eexists; eexists; eexists.
  all: try (left; reflexivity).
  all: right; exists (answer_params r); split; reflexivity.
Qed.

(** X9. A request that fails one of the three checks is answered and
    nothing else: no acknowledgement is written, no collaborator is called,
    the handler returns.  The signature is judged before the token: a
    failed verification gives [401] with the body "Unauthorized" (through
    [res.end] when the verifier throws, [res.send] when it reports an
    invalid signature), and only a verified request without a non-empty
    token gives [400]. *)
Theorem rejected_request_is_only_answered (w : World) (req : Request) :
  (forall msgs, ~ accepted w req msgs) ->
  calls (trace (handler w req)) = []
  /\ outcome (handler w req) = Returned
  /\ response (trace (handler w req))
     = match verifyAndParseRequest w (body req) (signature req) (keyID req) (token req) with
       | inl _ => [ResStatus 401; ResEnd (Some "Unauthorized")]
       | inr v =>
           if isValidRequest v
           then [ResStatus 400; ResEnd None]
           else [ResStatus 401; ResSend "Unauthorized"]
       end.
Proof.
  intros Hrejected. unfold handler.
  destruct (verifyAndParseRequest w _ _ _ _) as [? | v] eqn:Hverified;
    [repeat split |].
  destruct (isValidRequest v) eqn:Hvalid; cbn [negb]; [| repeat split].
  destruct (token req) as [[| c key] |] eqn:Htoken; [repeat split | | repeat split].
  destruct (Hrejected (Payload.messages (payload v))).
  exists v, c, key. rewrite Htoken. auto.
Qed.

(** X10. The only errors that leave the handler are those of the catalog
    call, of the tool-selection request, of the no-tool-call test on an
    empty [tool_calls], of [JSON.parse], and of the fallback stream.  An
    error of a capability or of the inference stream never does. *)
Theorem errors_that_leave_the_handler (w : World) (req : Request) (err : Exn) :
  outcome (handler w req) = Uncaught err ->
  listModels_result w = inl err
  \/ (exists p, capi_create w p = inl err)
  \/ err = TypeError "Cannot read properties of undefined (reading 'function')"
  \/ err = SyntaxError "JSON.parse"
  \/ exists p delivered, interrupted (capi_create_stream w p) = Some (delivered, err).
Proof.
  paths w req; try discriminate; intros Herr; inversion Herr; subst; clear Herr.
  - auto.
  - right; left. eexists. exact Hselection.
  - right; right; left.
    unfold no_tool_call in Htest.
    destruct (nth_error (choices toolCaller) 0) as [choice |]; [| discriminate].
    destruct (message choice) as [m |]; [| discriminate].
    destruct (tool_calls m) as [offered |]; [| discriminate].
    destruct (nth_error offered 0) as [c |]; [| congruence].
    destruct (function c); discriminate.
  - do 4 right. exists (fallback_params msgs), [].
    unfold interrupted. rewrite Hstream. reflexivity.
  - do 4 right. exists (fallback_params msgs), (chunks s).
    unfold interrupted. rewrite Hstream, Hfailure. reflexivity.
  - apply functionToCall_tested in Htest. destruct Htest as (f & Hf). congruence.
  - auto.
Qed.

(** X11. The no-tool-call test of lines 93-98 throws in one case only, a
    [tool_calls] array that is present and empty; and it is false exactly
    when the read of line 116 finds a function, so that read cannot throw
    once the test has passed. *)
Theorem no_tool_call_cases (toolCaller : Completion) :
  ((exists err, no_tool_call toolCaller = inl err)
   <-> exists choice others m,
        choices toolCaller = choice :: others
        /\ message choice = Some m
        /\ tool_calls m = Some [])
  /\ (no_tool_call toolCaller = inr false
      <-> exists f, functionToCall toolCaller = inr f).
Proof.
  split; [| apply functionToCall_tested].
  unfold no_tool_call. destruct toolCaller as [[| choice others]]; cbn.
  - split; [intros (err & H); discriminate | intros (c & o & m & H & _); discriminate].
  - destruct (message choice) as [m |] eqn:Hm.
    + destruct (tool_calls m) as [[| c rest] |] eqn:Hcalls; cbn.
      * split; [| eauto]. intros _. exists choice, others, m. auto.
      * split.
        -- intros (err & H). destruct (function c); discriminate.
        -- intros (c' & o & m' & H & Hm' & Hcalls'). inversion H; subst.
           congruence.
      * split; [intros (err & H); discriminate |].
        intros (c' & o & m' & H & Hm' & Hcalls'). inversion H; subst. congruence.
    + split; [intros (err & H); discriminate |].
      intros (c' & o & m' & H & Hm' & _). inversion H; subst. congruence.
Qed.

(** X12. Only the first choice of the tool-selection answer is read: the
    handler runs the same whatever choices follow it. *)
Theorem only_first_choice_is_read
        (w : World) (req : Request) (choice : Choice) (others : list Choice) :
  handler (answering w {| choices := choice :: others |}) req
  = handler (answering w {| choices := [choice] |}) req.
Proof.
  unfold handler. cbn [verifyAndParseRequest answering].
  destruct (verifyAndParseRequest w _ _ _ _) as [? | v]; [reflexivity |].
  destruct (isValidRequest v); cbn [negb]; [| reflexivity].
  destruct (token req) as [[| c key] |]; [reflexivity | | reflexivity].
  rewrite !serve_run. cbn [listModels_result capi_create answering].
  destruct (listModels_result w) as [? | models]; [reflexivity |].
  rewrite !dispatch_answering, !dispatch_run. reflexivity.
Qed.

Lemma no_status_in_relayed (s : Stream) (code : nat) :
  ~ In (ResStatus code) (relayed s).
Proof.
  unfold relayed. rewrite in_app_iff, in_map_iff.
  intros [(chunk & H & _) | H]; [discriminate |].
  destruct (failure s); [destruct H |].
  destruct H as [H | [H | []]]; discriminate.
Qed.

(** X13. The handler sets no status other than 400, 401 and 500, and it
    sets one only to end the response at once: whenever a status is set,
    that and the operation ending the response are the last two things
    done to the response. *)
Theorem status_only_to_end
        (w : World) (req : Request) (code : nat) :
  In (ResStatus code) (trace (handler w req)) ->
  (code = 400 \/ code = 401 \/ code = 500)
  /\ exists before closing,
      response (trace (handler w req)) = (before ++ [ResStatus code; closing])%list
      /\ is_closing closing = true.
Proof.
  intros Hstatus.
  assert (H : In (ResStatus code) (response (trace (handler w req))))
    by (apply filter_In; split; [exact Hstatus | reflexivity]).
  clear Hstatus. revert H.
  paths w req; observe; cbn [In]; rewrite ?in_app_iff; cbn [In]; intros H.
  all: repeat match goal with
              | H : _ \/ _ |- _ => destruct H as [H | H]
              | H : False |- _ => destruct H
              | H : In _ (relayed _) |- _ => apply no_status_in_relayed in H; destruct H
              | H : ResStatus _ = ResStatus _ |- _ => inversion H; subst; clear H
              | H : _ = ResStatus _ |- _ => discriminate H
              end.
  all: split; [auto |].
  all: first [ exists (@nil Event); eexists; split; reflexivity
             | exists [ResWrite ackEvent]; eexists; split; reflexivity
             | match goal with
               | |- context [relayed ?s] =>
                   exists (ResWrite ackEvent :: relayed s); eexists; split; reflexivity
               end ].
Qed.

End Handler.

(** ** The handler on concrete requests *)

(** The handler with the [JSON] model, the sample capabilities and the
    sample world in which the tool-selection call answers [toolCaller]. *)
Abbreviation sample_run toolCaller :=
  (handler JSON.parse JSON.stringify Sample.ackEvent
           Sample.listModels Sample.describeModel Sample.recommendModel
           Sample.executeModel_tool (Sample.world toolCaller)).

Lemma sample_selected (toolCaller : Completion) :
  selected JSON.stringify Sample.listModels Sample.describeModel Sample.recommendModel
           Sample.executeModel_tool (Sample.world toolCaller) Sample.request
           Sample.conversation toolCaller.
Proof.
  split.
  - exists {| isValidRequest := true;
              payload := {| Payload.messages := Sample.conversation |} |}.
    exists "g"%char, "hu_token". repeat split.
  - exists Sample.catalog. split; reflexivity.
Defined.


Lemma sample_accepted (toolCaller : Completion) :
  accepted (Sample.world toolCaller) Sample.request Sample.conversation.
Proof.
  exists {| isValidRequest := true;
            payload := {| Payload.messages := Sample.conversation |} |}.
  exists "g"%char, "hu_token". repeat split.
Defined.

(** C2 at a tool-selection answer whose [tool_calls] is the empty array,
    an answer that holds no tool call: the test of lines 93-98 throws
    before the fallback, so the inbound messages are never streamed; the
    only completion request of the run is the tool selection. *)
Theorem empty_tool_calls_not_streamed :
  let run := sample_run (offering (Some [])) Sample.request in
  (forall f, functionToCall (offering (Some [])) <> inr f)
  /\ streaming_requests (trace run) = []
  /\ calls (trace run)
     = [ ListModels;
         Create Capi
           (tool_call_params JSON.stringify Sample.listModels Sample.describeModel
              Sample.recommendModel Sample.executeModel_tool
              Sample.catalog Sample.conversation) ]
  /\ ~ In (ResWrite ("data: [DONE]" ++ LF ++ LF)) (trace run).
Proof.
  intros run. split; [intros f; discriminate |]. repeat split.
  intros [H | [H | [H | []]]]; discriminate.
Qed.

(** The fallback request on an answer without [tool_calls]. *)
Lemma fallback_on_missing_tool_calls :
  no_tool_call (offering None) = inr true
  /\ streaming_requests (trace (sample_run (offering None) Sample.request))
     = [(Capi, {| req_stream := true;
                  req_model := str "gpt-4";
                  req_messages := [Sample.user "using gpt-4o: say hi"];
                  req_tool_choice := None;
                  req_tools := None;
                  req_stream_options := None |})].
Proof.
  split; [reflexivity |].
  apply (fallback_streams_inbound_messages
           JSON.parse Sample.ackEvent (sample_selected (offering None))).
  - discriminate.
  - reflexivity.
Defined.

(** C3 on an answer that offers [describe_model] and then
    [execute_model]: only [describe_model] runs. *)
Lemma first_tool_call_wins_witness :
  let described := JObj [("model", JStr "GPT-4o")] in
  let first := tool_call "describe_model" (JSON.stringify described) in
  sample_run (offering (Some [first; Sample.say_hi])) Sample.request
  = sample_run (offering (Some [first])) Sample.request
  /\ executions (trace (sample_run (offering (Some [first; Sample.say_hi])) Sample.request))
     = [("describe_model", Sample.conversation, described)].
Proof.
  intros described first. split; [| reflexivity].
  exact (proj1 (proj2 (first_tool_call_wins
                         JSON.parse JSON.stringify Sample.ackEvent
                         Sample.listModels Sample.describeModel Sample.recommendModel
                         Sample.executeModel_tool (Sample.world (offering None))
                         Sample.request)
                      first [Sample.say_hi] [])).
Defined.

(** C4 at the conversation [[user "using gpt-4o: say hi"]]: the
    tool-selection request carries the user message twice. *)
Theorem selector_prompt_repeats_conversation :
  let sent := toolCallMessages JSON.stringify Sample.catalog Sample.conversation in
  sent = [ system_message JSON.stringify Sample.catalog;
           Sample.user "using gpt-4o: say hi";
           Sample.user "using gpt-4o: say hi" ]
  /\ exists p,
      In (Create Capi p) (trace (sample_run (offering None) Sample.request))
      /\ req_stream p = false
      /\ req_messages p = sent.
Proof.
  intros sent. split; [reflexivity |].
  exists (tool_call_params JSON.stringify Sample.listModels Sample.describeModel
            Sample.recommendModel Sample.executeModel_tool
            Sample.catalog Sample.conversation).
  split; [right; right; left; reflexivity | split; reflexivity].
Qed.

(** C5 at the tool call [execute_model] with the arguments
    [{model: gpt-4o}], which are not JSON: the [SyntaxError] leaves the
    handler, and the response has the acknowledgement and nothing else, no
    status and no end. *)
Theorem malformed_arguments_leave_response_open :
  let run := sample_run (offering (Some [tool_call "execute_model" "{model: gpt-4o}"]))
                        Sample.request in
  JSON.parse "{model: gpt-4o}" = None
  /\ outcome run = Uncaught (SyntaxError "JSON.parse")
  /\ response (trace run) = [ResWrite Sample.ackEvent]
  /\ executions (trace run) = []
  /\ streaming_requests (trace run) = [].
Proof. repeat split. Qed.

(** C6 on the sample stream of three chunks, on the fallback path. *)
Lemma chunks_relayed_in_order_witness :
  let run := sample_run (offering None) Sample.request in
  let original := fallback_params Sample.conversation in
  In (Capi, original) (streaming_requests (trace run))
  /\ stream_answer (Sample.world (offering None)) Capi original = inr Sample.stream
  /\ failure Sample.stream = None
  /\ response (trace run)
     = [ ResWrite Sample.ackEvent;
         ResWrite ("data: " ++ JSON.stringify (Sample.chunk "I am ") ++ LF ++ LF);
         ResWrite ("data: " ++ JSON.stringify (Sample.chunk "gpt-4o. ") ++ LF ++ LF);
         ResWrite ("data: " ++ JSON.stringify (Sample.chunk "Hi!") ++ LF ++ LF);
         ResWrite ("data: [DONE]" ++ LF ++ LF);
         ResEnd None ].
Proof.
  intros run original.
  assert (Hrequest : In (Capi, original) (streaming_requests (trace run)))
    by (left; reflexivity).
  split; [exact Hrequest |]. split; [reflexivity |]. split; [reflexivity |].
  exact (chunks_relayed_in_order
           JSON.parse JSON.stringify Sample.ackEvent
           Sample.listModels Sample.describeModel Sample.recommendModel
           Sample.executeModel_tool (Sample.world (offering None)) Sample.request
           Capi original Hrequest eq_refl eq_refl).
Defined.

(** C7 at a tool call that names no capability of the registry and whose
    arguments are not JSON: the [SyntaxError] of line 117 is thrown before
    the [try] of line 121 that would answer 500, so the handler sets no
    status and does not end the response. *)
Theorem unknown_capability_with_malformed_arguments :
  let run := sample_run (offering (Some [tool_call "summarize_model" "{model: gpt-4o}"]))
                        Sample.request in
  (forall funcClass,
      In funcClass (functions Sample.listModels Sample.describeModel
                              Sample.recommendModel Sample.executeModel_tool) ->
      definition_name funcClass <> Some "summarize_model")
  /\ JSON.parse "{model: gpt-4o}" = None
  /\ outcome run = Uncaught (SyntaxError "JSON.parse")
  /\ response (trace run) = [ResWrite Sample.ackEvent].
Proof.
  intros run. repeat split.
  intros funcClass [<- | [<- | [<- | [<- | []]]]]; discriminate.
Qed.

(** The [catch] of line 133 on a name the registry does not have, and on
    [describe_model] for a model the catalog does not have. *)
Lemma failed_capability_aborts_on_samples :
  let aborted run :=
    response (trace run) = [ResWrite Sample.ackEvent; ResStatus 500; ResEnd None]
    /\ streaming_requests (trace run) = []
    /\ outcome run = Returned in
  let described := JObj [("model", JStr "gpt-5000")] in
  aborted (sample_run (offering (Some [tool_call "summarize_model" "{}"])) Sample.request)
  /\ execute Sample.describeModel Sample.conversation described
     = inl (Error "NotFoundError: gpt-5000")
  /\ aborted (sample_run
                (offering (Some [tool_call "describe_model" (JSON.stringify described)]))
                Sample.request).
Proof.
  intros aborted described. split; [| split; [reflexivity |]].
  - apply (failed_capability_aborts
             JSON.parse Sample.ackEvent
             (sample_selected (offering (Some [tool_call "summarize_model" "{}"])))
             (f := {| name := "summarize_model"; arguments := "{}" |})
             (args := JObj [])).
    + reflexivity.
    + reflexivity.
    + left. intros funcClass. discriminate.
  - apply (failed_capability_aborts
             JSON.parse Sample.ackEvent
             (sample_selected
                (offering (Some [tool_call "describe_model" (JSON.stringify described)])))
             (f := {| name := "describe_model"; arguments := JSON.stringify described |})
             (args := described)).
    + reflexivity.
    + reflexivity.
    + right. exists Sample.describeModel, (Error "NotFoundError: gpt-5000").
      split; reflexivity.
Defined.

(** C8 at a tool-selection answer whose [tool_calls] is the empty array:
    the test of lines 93-98 throws, the fallback is not taken, and the
    response has the acknowledgement and nothing else. *)
Theorem empty_tool_calls_throw :
  let run := sample_run (offering (Some [])) Sample.request in
  no_tool_call (offering (Some []))
  = inl (TypeError "Cannot read properties of undefined (reading 'function')")
  /\ outcome run
     = Uncaught (TypeError "Cannot read properties of undefined (reading 'function')")
  /\ response (trace run) = [ResWrite Sample.ackEvent]
  /\ streaming_requests (trace run) = [].
Proof. repeat split. Qed.

(** C9 as stated fails: a request whose signature verifies but which
    carries no token is answered 400, and nothing is written to the
    response first. *)
Lemma signed_request_without_token_not_acknowledged :
  let w := Sample.world (offering None) in
  let req := Sample.request_without_token in
  (exists v,
      verifyAndParseRequest w (body req) (signature req) (keyID req) (token req) = inr v
      /\ isValidRequest v = true)
  /\ sample_run (offering None) req = ([ResStatus 400; ResEnd None], inr tt)
  /\ forall data, ~ In (ResWrite data) (trace (sample_run (offering None) req)).
Proof.
  intros w req. split; [| split].
  - eexists. split; reflexivity.
  - reflexivity.
  - intros data [H | [H | []]]; discriminate.
Qed.

(** C9, as amended, on the sample request. *)
Lemma accepted_request_acknowledged_first_witness :
  exists rest,
    trace (sample_run (offering (Some [Sample.say_hi])) Sample.request)
    = ResWrite Sample.ackEvent :: ListModels :: rest
    /\ (forall client p,
           In (Create client p)
              (trace (sample_run (offering (Some [Sample.say_hi])) Sample.request)) ->
           In (Create client p) rest)
    /\ forall data,
        In (ResWrite data) rest ->
        data = "data: [DONE]" ++ LF ++ LF
        \/ exists chunk, data = "data: " ++ JSON.stringify chunk ++ LF ++ LF.
Proof.
  exact (accepted_request_acknowledged_first
           JSON.parse JSON.stringify Sample.ackEvent
           Sample.listModels Sample.describeModel Sample.recommendModel
           Sample.executeModel_tool
           (sample_accepted (offering (Some [Sample.say_hi])))).
Defined.

(** C10 on the fallback request. *)
Lemma streaming_without_usage_reporting_witness :
  let run := sample_run (offering None) Sample.request in
  let p := {| req_stream := true;
              req_model := str "gpt-4";
              req_messages := [Sample.user "using gpt-4o: say hi"];
              req_tool_choice := None;
              req_tools := None;
              req_stream_options := None |} in
  In (Capi, p) (streaming_requests (trace run))
  /\ usage_reporting p = false
  /\ req_stream_options p = None.
Proof.
  intros run p.
  assert (Hrequest : In (Capi, p) (streaming_requests (trace run)))
    by (left; reflexivity).
  split; [exact Hrequest |].
  split; [| reflexivity].
  exact (proj1 (streaming_without_usage_reporting
                  JSON.parse JSON.stringify Sample.ackEvent
                  Sample.listModels Sample.describeModel Sample.recommendModel
                  Sample.executeModel_tool (Sample.world (offering None))
                  Sample.request Capi p Hrequest)).
Defined.

(** ** The further properties on concrete requests *)

(** The handler in the sample world whose backends answer a streaming
    request with [answer]. *)
Abbreviation sample_run_streaming toolCaller answer :=
  (handler JSON.parse JSON.stringify Sample.ackEvent
           Sample.listModels Sample.describeModel Sample.recommendModel
           Sample.executeModel_tool (Sample.world_streaming toolCaller answer)).

(** X1 on arguments without a [model]: the target is [undefined]. *)
Lemma execute_model_fails_on_null_only_witness :
  let args := JObj [("instruction", JStr "say hi")] in
  args <> JNull
  /\ ExecuteModel.execute [] args
     = inr {| model := None;
              messages :=
                [ {| role := "system"; content := str ExecuteModel.identity_prompt |};
                  Sample.user "say hi" ] |}.
Proof.
  intros args.
  assert (Hargs : args <> JNull) by discriminate.
  split; [exact Hargs |].
  destruct (proj2 (execute_model_fails_on_null_only []) args Hargs)
    as (target & text & Htarget & Htext & ->).
  inversion Htarget. inversion Htext. reflexivity.
Defined.

(** X2 on [describe_model] for a model of the catalog, whatever its case. *)
Lemma capability_result_is_streamed_witness :
  let described := JObj [("model", JStr "GPT-4o")] in
  let toolCaller :=
    offering (Some [tool_call "describe_model" (JSON.stringify described)]) in
  let run := sample_run toolCaller Sample.request in
  executions (trace run) = [("describe_model", Sample.conversation, described)]
  /\ streaming_requests (trace run)
     = [(Inference,
         {| req_stream := true;
            req_model := str "gpt-4o-mini";
            req_messages :=
              [ {| role := "system"; content := str "Describe the model GPT-4o" |} ];
            req_tool_choice := None;
            req_tools := None;
            req_stream_options := Some {| include_usage := false |} |})].
Proof.
  intros described toolCaller run.
  apply (capability_result_is_streamed
           JSON.parse Sample.ackEvent (sample_selected toolCaller)
           (f := {| name := "describe_model"; arguments := JSON.stringify described |})
           (args := described) (funcClass := Sample.describeModel)
           (r := {| model := str "gpt-4o-mini";
                    messages :=
                      [ {| role := "system";
                           content := str "Describe the model GPT-4o" |} ] |}));
    reflexivity.
Defined.

(** X3 on "using gpt-4o: say hi": [execute_model] is selected and the
    request is answered 500. *)
Lemma execute_model_is_never_dispatched_witness :
  let run := sample_run (offering (Some [Sample.say_hi])) Sample.request in
  response (trace run) = [ResWrite Sample.ackEvent; ResStatus 500; ResEnd None]
  /\ executions (trace run) = []
  /\ streaming_requests (trace run) = []
  /\ outcome run = Returned.
Proof.
  intros run.
  apply (execute_model_is_never_dispatched
           JSON.parse Sample.ackEvent (sample_selected (offering (Some [Sample.say_hi])))
           (f := {| name := "execute_model";
                    arguments := JSON.stringify (ExecuteModel.args "gpt-4o" "say hi") |})
           (args := ExecuteModel.args "gpt-4o" "say hi"));
    (reflexivity || discriminate).
Defined.

(** X4 on [describe_model] for a model of the catalog, with an inference
    stream that breaks after one chunk. *)
Lemma inference_stream_failure_caught_witness :
  let described := JObj [("model", JStr "GPT-4o")] in
  let toolCaller :=
    offering (Some [tool_call "describe_model" (JSON.stringify described)]) in
  let run := sample_run_streaming toolCaller (inr Sample.broken_stream) Sample.request in
  response (trace run)
  = [ ResWrite Sample.ackEvent;
      ResWrite ("data: " ++ JSON.stringify (Sample.chunk "I am ") ++ LF ++ LF);
      ResStatus 500;
      ResEnd None ]
  /\ outcome run = Returned.
Proof.
  intros described toolCaller run.
  refine (inference_stream_failure_caught
            JSON.parse JSON.stringify Sample.ackEvent
            Sample.listModels Sample.describeModel Sample.recommendModel
            Sample.executeModel_tool
            (Sample.world_streaming toolCaller (inr Sample.broken_stream))
            Sample.request
            (answer_params
               {| model := str "gpt-4o-mini";
                  messages :=
                    [ {| role := "system";
                         content := str "Describe the model GPT-4o" |} ] |})
            _ eq_refl).
  left. reflexivity.
Defined.

(** X5 on a fallback stream that breaks after one chunk. *)
Lemma fallback_stream_failure_escapes_witness :
  let run := sample_run_streaming (offering None) (inr Sample.broken_stream)
                                  Sample.request in
  response (trace run)
  = [ ResWrite Sample.ackEvent;
      ResWrite ("data: " ++ JSON.stringify (Sample.chunk "I am ") ++ LF ++ LF) ]
  /\ outcome run = Uncaught (Failure "socket hang up").
Proof.
  intros run.
  refine (fallback_stream_failure_escapes
            JSON.parse JSON.stringify Sample.ackEvent
            Sample.listModels Sample.describeModel Sample.recommendModel
            Sample.executeModel_tool
            (Sample.world_streaming (offering None) (inr Sample.broken_stream))
            Sample.request (fallback_params Sample.conversation)
            _ eq_refl).
  left. reflexivity.
Defined.

(** X6 on the sample run: nothing follows its [res.end()]. *)
Lemma nothing_after_the_response_ends_witness :
  let run := sample_run (offering None) Sample.request in
  exists before,
    response (trace run) = (before ++ [ResEnd None])%list
    /\ forall after, response (trace run) = (before ++ ResEnd None :: after)%list ->
                     after = [].
Proof.
  intros run.
  exists [ ResWrite Sample.ackEvent;
           ResWrite ("data: " ++ JSON.stringify (Sample.chunk "I am ") ++ LF ++ LF);
           ResWrite ("data: " ++ JSON.stringify (Sample.chunk "gpt-4o. ") ++ LF ++ LF);
           ResWrite ("data: " ++ JSON.stringify (Sample.chunk "Hi!") ++ LF ++ LF);
           ResWrite ("data: [DONE]" ++ LF ++ LF) ].
  split; [reflexivity |].
  intros after Hsplit.
  exact (nothing_after_the_response_ends
           JSON.parse JSON.stringify Sample.ackEvent
           Sample.listModels Sample.describeModel Sample.recommendModel
           Sample.executeModel_tool (Sample.world (offering None)) Sample.request
           _ after (ResEnd None) Hsplit eq_refl).
Defined.

(** X9 on the signed request without a token. *)
Lemma rejected_request_is_only_answered_witness :
  let run := sample_run (offering None) Sample.request_without_token in
  (forall msgs,
      ~ accepted (Sample.world (offering None)) Sample.request_without_token msgs)
  /\ calls (trace run) = []
  /\ outcome run = Returned
  /\ response (trace run) = [ResStatus 400; ResEnd None].
Proof.
  intros run.
  assert (Hrejected : forall msgs,
             ~ accepted (Sample.world (offering None)) Sample.request_without_token msgs).
  { intros msgs (v & c & key & _ & _ & Htoken & _). discriminate Htoken. }
  split; [exact Hrejected |].
  exact (rejected_request_is_only_answered
           JSON.parse JSON.stringify Sample.ackEvent
           Sample.listModels Sample.describeModel Sample.recommendModel
           Sample.executeModel_tool Hrejected).
Defined.

(** X10 on a tool call whose arguments are not JSON. *)
Lemma errors_that_leave_the_handler_witness :
  let w := Sample.world (offering (Some [tool_call "execute_model" "{model: gpt-4o}"])) in
  let run := sample_run (offering (Some [tool_call "execute_model" "{model: gpt-4o}"]))
                        Sample.request in
  let err := SyntaxError "JSON.parse" in
  outcome run = Uncaught err
  /\ (listModels_result w = inl err
      \/ (exists p, capi_create w p = inl err)
      \/ err = TypeError "Cannot read properties of undefined (reading 'function')"
      \/ err = SyntaxError "JSON.parse"
      \/ exists p delivered,
          interrupted (capi_create_stream w p) = Some (delivered, err)).
Proof.
  intros w run err.
  assert (Hrun : outcome run = Uncaught err) by reflexivity.
  split; [exact Hrun |].
  exact (errors_that_leave_the_handler
           JSON.parse JSON.stringify Sample.ackEvent
           Sample.listModels Sample.describeModel Sample.recommendModel
           Sample.executeModel_tool w Sample.request Hrun).
Defined.

(** X13 on an unknown capability: the status 500 and [res.end()] come
    last. *)
Lemma status_only_to_end_witness :
  let run := sample_run (offering (Some [tool_call "summarize_model" "{}"]))
                        Sample.request in
  In (ResStatus 500) (trace run)
  /\ exists before closing,
      response (trace run) = (before ++ [ResStatus 500; closing])%list
      /\ is_closing closing = true.
Proof.
  intros run.
  assert (Hstatus : In (ResStatus 500) (trace run))
    by (right; right; right; left; reflexivity).
  split; [exact Hstatus |].
  exact (proj2 (status_only_to_end
                  JSON.parse JSON.stringify Sample.ackEvent
                  Sample.listModels Sample.describeModel Sample.recommendModel
                  Sample.executeModel_tool
                  (Sample.world (offering (Some [tool_call "summarize_model" "{}"])))
                  Sample.request 500 Hstatus)).
Defined.
